(** * Role management (rol_management.py, api.py): model and properties

    The two Python modules share one class, [RoleManager], copied verbatim
    from rol_management.py into api.py.  The class talks to an Oracle
    database through one connection, keeps a snapshot of the roles table
    in a dictionary, and reports what it does with [print].

    The model below keeps those three ingredients apart:
    - Python values (strings, dictionaries, [sorted], truthiness);
    - the database session behind the connection, with its transaction
      state and the errors the driver can raise;
    - the methods themselves, written in a small state-and-exception monad
      that follows the [try]/[except]/[finally] structure of the source. *)

From Stdlib Require Import ZArith List String Ascii Bool Lia.
From Stdlib Require Import Permutation Sorted DecimalString.
Import ListNotations.

Open Scope string_scope.
Open Scope list_scope.
Open Scope Z_scope.

Notation "s1 +++ s2" := (String.append s1 s2)
  (at level 60, right associativity).

(** ** Python values *)

Module Py.

(** [str(n)] for an [int]. *)
Definition str_of_int (n : Z) : string :=
  NilZero.string_of_int (Z.to_int n).

(** [s * n] for a string [s]. *)
Fixpoint str_mul (s : string) (n : nat) : string :=
  match n with
  | O => EmptyString
  | S n' => s +++ str_mul s n'
  end.

(** The format specification [:<w]: left-justify in a field of width [w],
    padding with spaces on the right; longer text is left alone. *)
Definition ljust (w : nat) (s : string) : string :=
  s +++ str_mul " " (w - String.length s).

(** [needle in hay] for two strings. *)
Fixpoint str_contains (needle hay : string) : bool :=
  String.prefix needle hay ||
  match hay with
  | EmptyString => false
  | String _ rest => str_contains needle rest
  end.

(** The newline character of ["\n"]. *)
Definition nl : string := String (ascii_of_nat 10) EmptyString.

(** *** Dictionaries

    A Python [dict] iterates in insertion order, and assigning to a key
    that is already present keeps the key's position.  The order matters
    to [sorted(self.roles.items())] only through the claim that it does
    not, so the dictionary is an association list with that update. *)

Section Dict.
Context {K V : Type}.
Variable keq : K -> K -> bool.

Definition dict := list (K * V).

Fixpoint dict_set (d : dict) (k : K) (v : V) : dict :=
  match d with
  | [] => [(k, v)]
  | (k', v') :: rest =>
      if keq k' k then (k', v) :: rest
      else (k', v') :: dict_set rest k v
  end.

Fixpoint dict_get (d : dict) (k : K) : option V :=
  match d with
  | [] => None
  | (k', v') :: rest => if keq k' k then Some v' else dict_get rest k
  end.

(** [d.get(k, default)] *)
Definition dict_get_default (d : dict) (k : K) (default : V) : V :=
  match dict_get d k with
  | Some v => v
  | None => default
  end.

(** [k in d] *)
Definition dict_contains (d : dict) (k : K) : bool :=
  match dict_get d k with
  | Some _ => true
  | None => false
  end.

(** [d.items()] *)
Definition dict_items (d : dict) : list (K * V) := d.

(** [len(d)] *)
Definition dict_len (d : dict) : nat := List.length d.

(** [not d] *)
Definition dict_is_empty (d : dict) : bool :=
  match d with
  | [] => true
  | _ :: _ => false
  end.

(** [{k: v for (k, v) in pairs}] *)
Definition dict_of_pairs (pairs : list (K * V)) : dict :=
  fold_left (fun d kv => dict_set d (fst kv) (snd kv)) pairs [].

End Dict.

(** *** [sorted] on a list of [(int, str)] tuples

    Tuples compare lexicographically and [sorted] is stable; it uses only
    [<].  An insertion sort that puts a new element before the first one
    that is not smaller gives the same list. *)

Definition tuple_lt (a b : Z * string) : bool :=
  (fst a <? fst b) || ((fst a =? fst b) && String.ltb (snd a) (snd b)).

Fixpoint insert (x : Z * string) (l : list (Z * string)) : list (Z * string) :=
  match l with
  | [] => [x]
  | y :: rest => if tuple_lt y x then y :: insert x rest else x :: y :: rest
  end.

Fixpoint sorted (l : list (Z * string)) : list (Z * string) :=
  match l with
  | [] => []
  | x :: rest => insert x (sorted rest)
  end.

(** Truthiness of a value that is [None] or an [int]: [None] and [0] are
    false, every other integer is true. *)
Definition truthy (v : option Z) : bool :=
  match v with
  | None => false
  | Some n => negb (n =? 0)
  end.

(** The integer held by a value known not to be [None]. *)
Definition int_of (v : option Z) : Z :=
  match v with
  | Some n => n
  | None => 0
  end.

(** The values the HTTP layer hands to [jsonify]. *)
#[warnings="-register-all"]
Inductive value : Type :=
| VNone
| VInt (n : Z)
| VStr (s : string)
| VList (items : list value)
| VDict (fields : list (string * value)).

End Py.

(** ** The database behind the connection *)

Module Db.

(** A row of [ue21.ue_usuario_roles (id, rol_id, usr_id)]. *)
Record grant := mkGrant { g_id : Z; g_rol_id : Z; g_usr_id : Z }.

(** The three tables the statements of the source read and write:
    [ue21.ue_roles (id, nombre)], [ue21.ue_usuario (ID, USR_PORTAL)] and
    [ue21.ue_usuario_roles]. *)
Record Database := mkDatabase {
  ue_roles : list (Z * string);
  ue_usuario : list (Z * string);
  ue_usuario_roles : list grant
}.

(** [oracledb.Error] and its subclass [oracledb.IntegrityError], the two
    classes the handlers of the source tell apart; [str(e)] is the text. *)
Inductive ora_error : Type :=
| IntegrityError (text : string)
| DatabaseError (text : string).

Definition ora_str (e : ora_error) : string :=
  match e with
  | IntegrityError text => text
  | DatabaseError text => text
  end.

(** The SQL statements of the source, with their bind variables. *)
Inductive statement : Type :=
| SelectRoles
| SelectUser (usr : string)
| SelectGrant (rol_id usr_id : Z)
| SelectMaxId
| InsertGrant (id rol_id usr_id : Z).

(** What the program asks of the connection, in order. *)
Inductive db_call : Type :=
| Execute (stmt : statement)
| Commit
| Rollback.

Definition mutating (c : db_call) : bool :=
  match c with
  | Execute (InsertGrant _ _ _) => true
  | Execute _ => false
  | Commit => true
  | Rollback => true
  end.

(** [SELECT id, nombre FROM ue21.ue_roles] *)
Definition select_roles (db : Database) : list (Z * string) :=
  ue_roles db.

(** [SELECT ID FROM ue21.ue_usuario WHERE USR_PORTAL = :usr] *)
Definition select_user (db : Database) (usr : string) : list Z :=
  map fst (filter (fun u => String.eqb (snd u) usr) (ue_usuario db)).

Definition grant_matches (rol_id usr_id : Z) (g : grant) : bool :=
  (g_rol_id g =? rol_id) && (g_usr_id g =? usr_id).

(** [SELECT 1 FROM ue21.ue_usuario_roles
     WHERE rol_id = :rol_id AND usr_id = :usr_id] *)
Definition select_grant (db : Database) (rol_id usr_id : Z) : list Z :=
  map (fun _ => 1) (filter (grant_matches rol_id usr_id) (ue_usuario_roles db)).

(** [MAX(ID)] over a table: [NULL] when there is no row. *)
Fixpoint max_id (rows : list grant) : option Z :=
  match rows with
  | [] => None
  | g :: rest =>
      match max_id rest with
      | None => Some (g_id g)
      | Some m => Some (Z.max (g_id g) m)
      end
  end.

(** [SELECT MAX(ID) + 1 FROM ue21.UE_USUARIO_ROLES]: always one row, whose
    column is [NULL] ([None]) on an empty table. *)
Definition select_next_id (db : Database) : option Z :=
  match max_id (ue_usuario_roles db) with
  | None => None
  | Some m => Some (m + 1)
  end.

(** Modelled from the spec: the table definitions are not part of the
    source; the persisted schema gives the membership table a role id
    foreign key and a user id foreign key.  An insert whose parent row is
    missing is refused with ORA-02291. *)
Definition fk_ok (db : Database) (g : grant) : bool :=
  existsb (fun r => fst r =? g_rol_id g) (ue_roles db) &&
  existsb (fun u => fst u =? g_usr_id g) (ue_usuario db).

Definition ora_02291 : ora_error :=
  IntegrityError "ORA-02291: integrity constraint violated - parent key not found".

Definition add_grant (g : grant) (db : Database) : Database :=
  {| ue_roles := ue_roles db;
     ue_usuario := ue_usuario db;
     ue_usuario_roles := ue_usuario_roles db ++ [g] |}.

(** Number of membership rows for a (user, role) pair. *)
Definition count_grants (db : Database) (rol_id usr_id : Z) : nat :=
  List.length (filter (grant_matches rol_id usr_id) (ue_usuario_roles db)).

End Db.

(** ** The world a call runs in

    One connection, shared by reference between the caller and the
    manager: its committed data, the data as the open transaction sees it,
    the driver errors still to come (one entry per [execute] or [commit];
    [None], or an exhausted list, lets the call go through), and the calls
    made so far.  Next to it, the lines printed. *)

Inductive stream : Type := Stdout | Stderr.

Record World := mkWorld {
  committed : Db.Database;
  session : Db.Database;
  faults : list (option Db.ora_error);
  calls : list Db.db_call;
  output : list (stream * string)
}.

(** Exceptions that can cross a method boundary. *)
Inductive exn : Type :=
| OracleError (e : Db.ora_error)
| ValueError (text : string)
| AttributeError (text : string).

Definition exn_str (e : exn) : string :=
  match e with
  | OracleError oe => Db.ora_str oe
  | ValueError text => text
  | AttributeError text => text
  end.

Inductive result (A : Type) : Type :=
| Ret (a : A)
| Raise (e : exn).
Arguments Ret {A} a.
Arguments Raise {A} e.

Definition M (A : Type) : Type := World -> result A * World.

Definition ret {A} (a : A) : M A := fun w => (Ret a, w).

Definition raise {A} (e : exn) : M A := fun w => (Raise e, w).

Definition bind {A B} (m : M A) (k : A -> M B) : M B :=
  fun w =>
    match m w with
    | (Ret a, w') => k a w'
    | (Raise e, w') => (Raise e, w')
    end.

Notation "x <- m ;; k" := (bind m (fun x => k))
  (at level 61, m at next level, right associativity).
Notation "m ;; k" := (bind m (fun _ => k))
  (at level 61, right associativity).

(** [try: body except ...: handler]: [handler e] is [None] when no
    [except] clause matches [e], which then keeps propagating. *)
Definition try_except {A} (body : M A) (handler : exn -> option (M A)) : M A :=
  fun w =>
    match body w with
    | (Ret a, w') => (Ret a, w')
    | (Raise e, w') =>
        match handler e with
        | Some h => h w'
        | None => (Raise e, w')
        end
    end.

(** [try: body finally: cleanup]: the cleanup runs on every exit. *)
Definition try_finally {A} (body : M A) (cleanup : M unit) : M A :=
  fun w =>
    match body w with
    | (r, w') =>
        match cleanup w' with
        | (Ret _, w'') => (r, w'')
        | (Raise e, w'') => (Raise e, w'')
        end
    end.

(** Updates of one component of the world. *)
Definition add_output (line : stream * string) (w : World) : World :=
  {| committed := committed w; session := session w; faults := faults w;
     calls := calls w; output := output w ++ [line] |}.

Definition add_call (c : Db.db_call) (w : World) : World :=
  {| committed := committed w; session := session w; faults := faults w;
     calls := calls w ++ [c]; output := output w |}.

Definition set_session (db : Db.Database) (w : World) : World :=
  {| committed := committed w; session := db; faults := faults w;
     calls := calls w; output := output w |}.

Definition set_committed (db : Db.Database) (w : World) : World :=
  {| committed := db; session := session w; faults := faults w;
     calls := calls w; output := output w |}.

(** The driver error, if any, that the next [execute] or [commit] meets,
    and the world once that call has used up its entry. *)
Definition next_fault (w : World) : option Db.ora_error :=
  match faults w with
  | Some e :: _ => Some e
  | _ => None
  end.

Definition tick (w : World) : World :=
  {| committed := committed w; session := session w; faults := tl (faults w);
     calls := calls w; output := output w |}.

(** [print(text)] and [print(text, file=sys.stderr)] *)
Definition print (s : stream) (text : string) : M unit :=
  fun w => (Ret tt, add_output (s, text) w).

Definition log_call (c : Db.db_call) : M unit :=
  fun w => (Ret tt, add_call c w).

Definition take_fault : M unit :=
  fun w =>
    match next_fault w with
    | Some e => (Raise (OracleError e), tick w)
    | None => (Ret tt, tick w)
    end.

(** [cursor.execute(query)], returning what the cursor then holds. *)
Definition execute_query {A} (stmt : Db.statement) (q : Db.Database -> A) : M A :=
  log_call (Db.Execute stmt) ;;
  take_fault ;;
  fun w => (Ret (q (session w)), w).

(** [cursor.execute("INSERT INTO ue21.ue_usuario_roles ...")] *)
Definition execute_insert (g : Db.grant) : M unit :=
  log_call (Db.Execute (Db.InsertGrant (Db.g_id g) (Db.g_rol_id g) (Db.g_usr_id g))) ;;
  take_fault ;;
  fun w =>
    if Db.fk_ok (session w) g
    then (Ret tt, set_session (Db.add_grant g (session w)) w)
    else (Raise (OracleError Db.ora_02291), w).

(** [connection.commit()] makes the transaction's data the committed data. *)
Definition commit : M unit :=
  log_call Db.Commit ;;
  take_fault ;;
  fun w => (Ret tt, set_committed (session w) w).

(** [connection.rollback()] discards what the transaction has not
    committed. *)
Definition rollback : M unit :=
  log_call Db.Rollback ;;
  fun w => (Ret tt, set_session (committed w) w).

(** [cursor.fetchone()] on the rows a cursor holds. *)
Definition fetchone {A} (rows : list A) : option A := hd_error rows.

(** [cursor.close()] releases the cursor and changes nothing else. *)
Definition cursor_close : M unit := ret tt.

(** ** class RoleManager

    rol_management.py, lines 8-152; api.py repeats the class word for word
    at lines 84-228. *)

Module RoleManager.

(** What [self.connection] holds: [None], or the connection. *)
Inductive conn_ref : Type := NoConnection | TheConnection.

Definition roles_dict : Type := @Py.dict Z string.
Definition names_dict : Type := @Py.dict string Z.

Record t := mk {
  connection : conn_ref;
  roles : roles_dict;
  roles_by_name : names_dict
}.

(** [not self.connection] *)
Definition no_connection (c : conn_ref) : bool :=
  match c with
  | NoConnection => true
  | TheConnection => false
  end.

(** [self.connection.cursor()]: an attribute lookup on [None] fails. *)
Definition cursor (c : conn_ref) : M unit :=
  match c with
  | NoConnection => raise (AttributeError "'NoneType' object has no attribute 'cursor'")
  | TheConnection => ret tt
  end.

(** The [except oracledb.Error as e] clause. *)
Definition except_oracle_error {A} (h : Db.ora_error -> M A) (e : exn) : option (M A) :=
  match e with
  | OracleError oe => Some (h oe)
  | _ => None
  end.

Definition load_roles_from_db (c : conn_ref) : M roles_dict :=
  if no_connection c then
    raise (ValueError "Una conexion con la base de datos es requerida.")
  else
    cursor c ;;
    try_finally
      (try_except
         (rows <- execute_query Db.SelectRoles Db.select_roles ;;
          ret (Py.dict_of_pairs Z.eqb rows))
         (except_oracle_error (fun e =>
            print Stderr ("Error cargando roles: " +++ Db.ora_str e) ;;
            ret [])))
      cursor_close.

(** [{name: id for id, name in self.roles.items()}] *)
Definition index_by_name (roles : roles_dict) : names_dict :=
  Py.dict_of_pairs String.eqb (map (fun kv => (snd kv, fst kv)) (Py.dict_items roles)).

Definition init (db_connection : conn_ref) : M t :=
  roles <- load_roles_from_db db_connection ;;
  ret {| connection := db_connection;
         roles := roles;
         roles_by_name := index_by_name roles |}.

Definition role_exists (self : t) (role_id : Z) : bool :=
  Py.dict_contains Z.eqb (roles self) role_id.

Definition get_user_id (self : t) (user : string) : M (option Z) :=
  cursor (connection self) ;;
  try_finally
    (try_except
       (rows <- execute_query (Db.SelectUser user) (fun db => Db.select_user db user) ;;
        ret (fetchone rows))
       (except_oracle_error (fun e =>
          print Stderr ("Error trayendo usuario '" +++ user +++ "': " +++ Db.ora_str e) ;;
          ret None)))
    cursor_close.

(** The lines of the table printed by [list_all_roles]. *)
Definition roles_header : list string :=
  [ "Roles disponibles:";
    Py.str_mul "=" 50;
    Py.ljust 5 "ID" +++ " | " +++ "Nombre de Rol";
    Py.str_mul "-" 50 ].

Definition role_line (kv : Z * string) : string :=
  Py.ljust 5 (Py.str_of_int (fst kv)) +++ " | " +++ snd kv.

Definition roles_footer (roles : roles_dict) : string :=
  Py.nl +++ "Total de roles: " +++ Py.str_of_int (Z.of_nat (Py.dict_len roles)).

Fixpoint print_all (s : stream) (lines : list string) : M unit :=
  match lines with
  | [] => ret tt
  | line :: rest => print s line ;; print_all s rest
  end.

(** The method returns [None] on both paths. *)
Definition list_all_roles (self : t) : M Py.value :=
  if Py.dict_is_empty (roles self) then
    print Stderr "No se encontraron roles en la DB" ;;
    ret Py.VNone
  else
    print_all Stdout roles_header ;;
    print_all Stdout (map role_line (Py.sorted (Py.dict_items (roles self)))) ;;
    print Stdout (roles_footer (roles self)) ;;
    ret Py.VNone.

(** The messages of [check_user_role] and [grant_role]. *)
Definition msg_user_missing (user : string) : string :=
  "Warning: Usuario '" +++ user +++ "' no existente".

Definition msg_role_missing (role_id : Z) : string :=
  "Error: ID de Rol " +++ Py.str_of_int role_id +++ " no existente".

Definition role_name (self : t) (role_id : Z) : string :=
  Py.dict_get_default Z.eqb (roles self) role_id EmptyString.

Definition msg_has_role (user : string) (role_id : Z) (name : string) : string :=
  "✓ Usuario '" +++ user +++ "' tiene el rol " +++ Py.str_of_int role_id
    +++ " (" +++ name +++ ")".

Definition msg_lacks_role (user : string) (role_id : Z) (name : string) : string :=
  "✗ Usuario '" +++ user +++ "' no tiene el rol " +++ Py.str_of_int role_id
    +++ " (" +++ name +++ ")".

Definition msg_check_failed (e : Db.ora_error) : string :=
  "Error de Oracle al revisar el rol: " +++ Db.ora_str e.

Definition msg_already (user : string) (role_id : Z) (name : string) : string :=
  "Info: Usuario '" +++ user +++ "' ya tiene el rol " +++ Py.str_of_int role_id
    +++ " (" +++ name +++ ")".

Definition msg_granted (user : string) (role_id : Z) (name : string) : string :=
  "Success: Se concedio el rol " +++ Py.str_of_int role_id
    +++ " (" +++ name +++ ") al usuario '" +++ user +++ "'".

Definition msg_fk (role_id : Z) : string :=
  "Error: ID de Rol " +++ Py.str_of_int role_id +++ " no existente (violacion de FK)".

Definition msg_integrity (e : Db.ora_error) : string :=
  "Error de integridad de Oracle: " +++ Db.ora_str e.

Definition msg_oracle (e : Db.ora_error) : string :=
  "Error de Oracle: " +++ Db.ora_str e.

Definition check_user_role (self : t) (user : string) (role_id : Z) : M bool :=
  if no_connection (connection self) then
    raise (ValueError "Una conexion con la base de datos es requerida")
  else
    cursor (connection self) ;;
    try_finally
      (try_except
         (user_id <- get_user_id self user ;;
          if negb (Py.truthy user_id) then
            print Stderr (msg_user_missing user) ;;
            ret false
          else if negb (role_exists self role_id) then
            print Stderr (msg_role_missing role_id) ;;
            ret false
          else
            rows <- execute_query (Db.SelectGrant role_id (Py.int_of user_id))
                      (fun db => Db.select_grant db role_id (Py.int_of user_id)) ;;
            let has_role :=
              match fetchone rows with Some _ => true | None => false end in
            let name := role_name self role_id in
            (if has_role then print Stdout (msg_has_role user role_id name)
             else print Stdout (msg_lacks_role user role_id name)) ;;
            ret has_role)
         (except_oracle_error (fun e =>
            print Stderr (msg_check_failed e) ;;
            ret false)))
      cursor_close.

(** The two [except] clauses of [grant_role], tried in order:
    [oracledb.IntegrityError] first, then [oracledb.Error]. *)
Definition grant_role_handler (role_id : Z) (e : exn) : option (M bool) :=
  match e with
  | OracleError (Db.IntegrityError text) =>
      Some ((if Py.str_contains "ORA-02291" text
             then print Stderr (msg_fk role_id)
             else print Stderr (msg_integrity (Db.IntegrityError text))) ;;
            rollback ;;
            ret false)
  | OracleError (Db.DatabaseError text) =>
      Some (print Stderr (msg_oracle (Db.DatabaseError text)) ;;
            rollback ;;
            ret false)
  | _ => None
  end.

Definition grant_role (self : t) (user : string) (role_id : Z) : M bool :=
  if no_connection (connection self) then
    raise (ValueError "Una conexion con la base de datos es requerida.")
  else
    cursor (connection self) ;;
    try_finally
      (try_except
         (user_id <- get_user_id self user ;;
          if negb (Py.truthy user_id) then
            print Stderr (msg_user_missing user) ;;
            ret false
          else if negb (role_exists self role_id) then
            print Stderr (msg_role_missing role_id) ;;
            ret false
          else
            rows <- execute_query (Db.SelectGrant role_id (Py.int_of user_id))
                      (fun db => Db.select_grant db role_id (Py.int_of user_id)) ;;
            match fetchone rows with
            | Some _ =>
                print Stdout (msg_already user role_id (role_name self role_id)) ;;
                ret true
            | None =>
                max_id_result <- execute_query Db.SelectMaxId Db.select_next_id ;;
                let new_id :=
                  match max_id_result with Some n => n | None => 1 end in
                execute_insert (Db.mkGrant new_id role_id (Py.int_of user_id)) ;;
                commit ;;
                print Stdout (msg_granted user role_id (role_name self role_id)) ;;
                ret true
            end)
         (grant_role_handler role_id))
      cursor_close.

End RoleManager.

(** ** api.py: what the module adds to the class *)

Module Api.

(** The function [list_all_roles(self)] defined at module level (line 230),
    after the class body has ended.  It is not an attribute of the class. *)
Definition list_all_roles (self : RoleManager.t) : Py.value :=
  if Py.dict_is_empty (RoleManager.roles self) then
    Py.VDict [("error", Py.VStr "No se encontraron roles")]
  else
    let roles_list :=
      map (fun kv => Py.VDict [("id", Py.VInt (fst kv)); ("nombre", Py.VStr (snd kv))])
          (Py.sorted (Py.dict_items (RoleManager.roles self))) in
    Py.VDict [("total", Py.VInt (Z.of_nat (List.length roles_list)));
              ("roles", Py.VList roles_list)].

(** A Flask response: the value given to [jsonify] and the status code. *)
Definition response : Type := Py.value * Z.

(** The view of [GET /roles].  [role_manager] is the module's global:
    [None] until a manager has been built.  The call
    [role_manager.list_all_roles()] is a method call, so it runs the
    method of the class. *)
Definition get_all_roles (role_manager : option RoleManager.t) : M response :=
  match role_manager with
  | None =>
      ret (Py.VDict [("error", Py.VStr "El servidor no pudo conectarse a la base de datos")],
           500)
  | Some rm =>
      try_except
        (roles_data <- RoleManager.list_all_roles rm ;;
         ret (roles_data, 200))
        (fun e =>
           Some (ret (Py.VDict [("error", Py.VStr ("Ocurrió un error: " +++ exn_str e))],
                      500)))
  end.

End Api.

(** ** Vocabulary of the properties *)

(** Strictly ascending role ids along a list of (id, name) pairs. *)
Definition ascending (l : list (Z * string)) : Prop :=
  StronglySorted (fun a b => fst a < fst b) l.

(** No entry of a fault schedule is an error. *)
Definition quiet (fs : list (option Db.ora_error)) : bool :=
  forallb (fun f => match f with None => true | Some _ => false end) fs.

(** The world once the driver has served one call. *)
Definition after_call (c : Db.db_call) (w : World) : World :=
  tick (add_call c w).

(** What [get_user_id] hands back in a world, and the world it leaves:
    the first id the query finds, or [None] with a line on stderr when the
    driver fails. *)
Definition msg_user_lookup (user : string) (e : Db.ora_error) : string :=
  "Error trayendo usuario '" +++ user +++ "': " +++ Db.ora_str e.

Definition resolved (w : World) (user : string) : option Z :=
  match next_fault w with
  | None => fetchone (Db.select_user (session w) user)
  | Some _ => None
  end.

Definition after_resolve (w : World) (user : string) : World :=
  match next_fault w with
  | None => after_call (Db.Execute (Db.SelectUser user)) w
  | Some e =>
      add_output (Stderr, msg_user_lookup user e)
        (after_call (Db.Execute (Db.SelectUser user)) w)
  end.

(** The line the handlers of [grant_role] print for a driver error, and
    the outcome of the handlers: the line, a rollback, [False]. *)
Definition failure_line (role_id : Z) (e : Db.ora_error) : string :=
  match e with
  | Db.IntegrityError text =>
      if Py.str_contains "ORA-02291" text then RoleManager.msg_fk role_id
      else RoleManager.msg_integrity e
  | Db.DatabaseError _ => RoleManager.msg_oracle e
  end.

Definition grant_failure (role_id : Z) (e : Db.ora_error) (w : World)
  : result bool * World :=
  let w' := add_call Db.Rollback (add_output (Stderr, failure_line role_id e) w) in
  (Ret false, set_session (committed w') w').

(** The row [grant_role] inserts: [id] is [MAX(ID) + 1], or 1 on an empty
    table. *)
Definition new_grant (db : Db.Database) (role_id uid : Z) : Db.grant :=
  Db.mkGrant (match Db.select_next_id db with Some n => n | None => 1 end) role_id uid.

(** The same data in two worlds: neither the committed tables nor the
    tables as the transaction sees them differ. *)
Definition same_data (w w' : World) : Prop :=
  committed w' = committed w /\ session w' = session w.

(** The calls made between two worlds. *)
Definition calls_between (w w' : World) (cs : list Db.db_call) : Prop :=
  calls w' = calls w ++ cs.

(** The lines printed between two worlds. *)
Definition printed_between (w w' : World) (ls : list (stream * string)) : Prop :=
  output w' = output w ++ ls.

(** The lines of a call that stops at the user check: the resolver's own
    line when the driver failed, then the warning. *)
Definition user_missing_lines (w : World) (user : string) : list (stream * string) :=
  match next_fault w with
  | None => []
  | Some e => [(Stderr, msg_user_lookup user e)]
  end ++ [(Stderr, RoleManager.msg_user_missing user)].

(** The "user not found" outcome of a call started in [w]: [False], the
    warning as the last line, one SELECT on the users table and no other
    call, the data untouched. *)
Definition user_not_found_outcome (w : World) (user : string)
    (run : result bool * World) : Prop :=
  fst run = Ret false /\
  printed_between w (snd run) (user_missing_lines w user) /\
  calls_between w (snd run) [Db.Execute (Db.SelectUser user)] /\
  same_data w (snd run).

(** The "role not found" outcome: [False], the error line about the role
    id and nothing else printed, one SELECT on the users table and no
    other call, the data untouched. *)
Definition role_not_found_outcome (w : World) (user : string) (role_id : Z)
    (run : result bool * World) : Prop :=
  fst run = Ret false /\
  printed_between w (snd run) [(Stderr, RoleManager.msg_role_missing role_id)] /\
  calls_between w (snd run) [Db.Execute (Db.SelectUser user)] /\
  same_data w (snd run).

(** Printing several lines in a row. *)
Definition add_outputs (lines : list (stream * string)) (w : World) : World :=
  fold_left (fun w line => add_output line w) lines w.

(** The dictionary the module-level [list_all_roles] builds for a role. *)
Definition role_entry (kv : Z * string) : Py.value :=
  Py.VDict [("id", Py.VInt (fst kv)); ("nombre", Py.VStr (snd kv))].

(** The lines [RoleManager.list_all_roles] prints for a listing. *)
Definition table_lines (self : RoleManager.t) (listing : list (Z * string))
  : list (stream * string) :=
  map (pair Stdout)
    (RoleManager.roles_header ++ map RoleManager.role_line listing
       ++ [RoleManager.roles_footer (RoleManager.roles self)]).

(** The worlds the three ways through [grant_role] past the catalog check
    leave, when the driver raises nothing of its own: the role was already
    granted; the row was inserted and committed; the insert was refused by
    a foreign key. *)
Definition already_world (self : RoleManager.t) (user : string) (role_id uid : Z)
    (w : World) : World :=
  add_output
    (Stdout, RoleManager.msg_already user role_id (RoleManager.role_name self role_id))
    (after_call (Db.Execute (Db.SelectGrant role_id uid))
       (after_call (Db.Execute (Db.SelectUser user)) w)).

Definition before_insert (user : string) (role_id uid : Z) (w : World) : World :=
  after_call
    (Db.Execute (Db.InsertGrant (Db.g_id (new_grant (session w) role_id uid)) role_id uid))
    (after_call (Db.Execute Db.SelectMaxId)
       (after_call (Db.Execute (Db.SelectGrant role_id uid))
          (after_call (Db.Execute (Db.SelectUser user)) w))).

Definition granted_world (self : RoleManager.t) (user : string) (role_id uid : Z)
    (w : World) : World :=
  let db := Db.add_grant (new_grant (session w) role_id uid) (session w) in
  add_output
    (Stdout, RoleManager.msg_granted user role_id (RoleManager.role_name self role_id))
    (set_committed db
       (after_call Db.Commit (set_session db (before_insert user role_id uid w)))).

Definition rejected_world (user : string) (role_id uid : Z) (w : World) : World :=
  let w' := add_call Db.Rollback
              (add_output (Stderr, RoleManager.msg_fk role_id)
                 (before_insert user role_id uid w)) in
  set_session (committed w') w'.

(** ** Sample data *)

Module Sample.

Definition catalog : RoleManager.roles_dict := [(5, "Editor")].

Definition manager : RoleManager.t :=
  RoleManager.mk RoleManager.TheConnection catalog (RoleManager.index_by_name catalog).

Definition world_of (db : Db.Database) : World :=
  {| committed := db; session := db; faults := []; calls := []; output := [] |}.

(** alice has id 42 and no role yet. *)
Definition db_alice : Db.Database :=
  {| Db.ue_roles := [(5, "Editor")];
     Db.ue_usuario := [(42, "alice")];
     Db.ue_usuario_roles := [] |}.

(** alice already holds role 5. *)
Definition db_granted : Db.Database :=
  {| Db.ue_roles := [(5, "Editor")];
     Db.ue_usuario := [(42, "alice")];
     Db.ue_usuario_roles := [Db.mkGrant 1 5 42] |}.

(** Role 5 has been deleted since the manager loaded its catalog. *)
Definition db_stale : Db.Database :=
  {| Db.ue_roles := [];
     Db.ue_usuario := [(42, "alice")];
     Db.ue_usuario_roles := [] |}.

(** The user root has id 0. *)
Definition db_root : Db.Database :=
  {| Db.ue_roles := [(5, "Editor")];
     Db.ue_usuario := [(0, "root")];
     Db.ue_usuario_roles := [] |}.

(** A manager whose catalog was loaded from the given rows. *)
Definition manager_of (rows : list (Z * string)) : RoleManager.t :=
  let roles := Py.dict_of_pairs Z.eqb rows in
  RoleManager.mk RoleManager.TheConnection roles (RoleManager.index_by_name roles).

Definition rows_unsorted : list (Z * string) := [(2, "Admin"); (1, "Viewer")].

Definition rows_sorted : list (Z * string) := [(1, "Viewer"); (2, "Admin")].

(** A world whose next driver call fails, and one whose second does. *)
Definition lost_contact : Db.ora_error :=
  Db.DatabaseError "ORA-03113: end-of-file on communication channel".

Definition world_failing_first : World :=
  {| committed := db_alice; session := db_alice; faults := [Some lost_contact];
     calls := []; output := [] |}.

Definition world_failing_second : World :=
  {| committed := db_alice; session := db_alice; faults := [None; Some lost_contact];
     calls := []; output := [] |}.

End Sample.

(** ** The process around the manager

    rol_management.py, lines 155-241, and the start-up code of api.py,
    lines 29-82 and 335-349.  This code can end the process with
    [sys.exit]; [SystemExit] is not an [Exception], so [except ValueError]
    and [except Exception] let it pass, while [finally] still runs. *)

Module Proc.

(** What is in flight when a block is left early. *)
Inductive raised : Type :=
| Exc (e : exn)
| SysExit (code : Z).

Inductive outcome (A : Type) : Type :=
| Done (a : A)
| Stopped (s : raised).
Arguments Done {A} a.
Arguments Stopped {A} s.

(** The world of the calls, and whether [connection.close()] has run. *)
Record Process := mkProcess { world : World; connection_closed : bool }.

Definition P (A : Type) : Type := Process -> outcome A * Process.

Definition pret {A} (a : A) : P A := fun p => (Done a, p).

Definition pbind {A B} (m : P A) (k : A -> P B) : P B :=
  fun p =>
    match m p with
    | (Done a, p') => k a p'
    | (Stopped s, p') => (Stopped s, p')
    end.

Declare Scope proc_scope.
Delimit Scope proc_scope with proc.
Notation "x <- m ;; k" := (pbind m (fun x => k))
  (at level 61, m at next level, right associativity) : proc_scope.
Notation "m ;; k" := (pbind m (fun _ => k))
  (at level 61, right associativity) : proc_scope.
Local Open Scope proc_scope.

(** A call of the manager, run inside the process. *)
Definition lift {A} (m : M A) : P A :=
  fun p =>
    match m (world p) with
    | (Ret a, w') => (Done a, mkProcess w' (connection_closed p))
    | (Raise e, w') => (Stopped (Exc e), mkProcess w' (connection_closed p))
    end.

Definition praise {A} (e : exn) : P A := fun p => (Stopped (Exc e), p).

(** [sys.exit(code)] *)
Definition sys_exit {A} (code : Z) : P A := fun p => (Stopped (SysExit code), p).

(** [try: body except ...: handler] and [try: body finally: cleanup]. *)
Definition try_except {A} (body : P A) (handler : raised -> option (P A)) : P A :=
  fun p =>
    match body p with
    | (Done a, p') => (Done a, p')
    | (Stopped s, p') =>
        match handler s with
        | Some h => h p'
        | None => (Stopped s, p')
        end
    end.

Definition try_finally {A} (body : P A) (cleanup : P unit) : P A :=
  fun p =>
    match body p with
    | (r, p') =>
        match cleanup p' with
        | (Done _, p'') => (r, p'')
        | (Stopped s, p'') => (Stopped s, p'')
        end
    end.

(** [connection.close()] *)
Definition close : P unit := fun p => (Done tt, mkProcess (world p) true).

(** [for x in xs: body(x)] *)
Fixpoint for_each {A} (xs : list A) (body : A -> P unit) : P unit :=
  match xs with
  | [] => pret tt
  | x :: rest => body x ;; for_each rest body
  end.

(** The status the interpreter exits with once [main()] is over. *)
Definition exit_status {A} (r : outcome A) : Z :=
  match r with
  | Done _ => 0
  | Stopped (SysExit code) => code
  | Stopped (Exc _) => 1
  end.

(** *** Strings *)

(** [s.split(",")] *)
Fixpoint split_commas (s : string) : list string :=
  match s with
  | EmptyString => [EmptyString]
  | String c rest =>
      if Ascii.eqb c "," then EmptyString :: split_commas rest
      else match split_commas rest with
           | [] => [String c EmptyString]
           | piece :: pieces => String c piece :: pieces
           end
  end.

(** [s.upper()] on the ASCII letters, which is all the parameter names
    it is applied to contain. *)
Definition upper_char (c : ascii) : ascii :=
  let n := nat_of_ascii c in
  if (Nat.leb 97 n && Nat.leb n 122)%bool then ascii_of_nat (n - 32) else c.

Fixpoint upper (s : string) : string :=
  match s with
  | EmptyString => EmptyString
  | String c rest => String (upper_char c) (upper rest)
  end.

(** Truthiness of the values a configuration holds. *)
Definition value_truthy (v : Py.value) : bool :=
  match v with
  | Py.VNone => false
  | Py.VInt n => negb (n =? 0)
  | Py.VStr s => negb (String.eqb s EmptyString)
  | Py.VList items => match items with [] => false | _ => true end
  | Py.VDict fields => match fields with [] => false | _ => true end
  end.

(** Truthiness of a command-line value: [None] or a string. *)
Definition given (v : option string) : bool :=
  match v with
  | None => false
  | Some s => negb (String.eqb s EmptyString)
  end.

(** [os.getenv(name)] as a value. *)
Definition getenv_value (getenv : string -> option string) (name : string) : Py.value :=
  match getenv name with
  | Some s => Py.VStr s
  | None => Py.VNone
  end.

(** [str(v)] for the values printed by the start-up code. *)
Definition str_of_value (v : Py.value) : string :=
  match v with
  | Py.VStr s => s
  | Py.VNone => "None"
  | Py.VInt n => Py.str_of_int n
  | _ => EmptyString
  end.

Section Builtins.

(** The two builtins the code leans on are taken as given: [int(s)], which
    returns an integer or raises [ValueError] with a text, and
    [s.strip()]. *)
Variable py_int : string -> Z + string.
Variable py_strip : string -> string.

(** The environment once [load_dotenv] has run, and what the attempt to
    connect meets: nothing, or an [oracledb.Error]. *)
Variable getenv : string -> option string.
Variable attempt : option Db.ora_error.

Definition int (s : string) : P Z :=
  match py_int s with
  | inl n => pret n
  | inr text => praise (ValueError text)
  end.

Definition config : Type := @Py.dict string Py.value.

(** [config[param]] for a key the dictionary holds. *)
Definition config_get (c : config) (param : string) : Py.value :=
  Py.dict_get_default String.eqb c param Py.VNone.

Definition required_params : list string := ["user"; "password"; "host"; "sid"].

Definition missing_params (c : config) : list string :=
  filter (fun param => negb (value_truthy (config_get c param))) required_params.

Definition env_names (params : list string) : string :=
  String.concat ", " (map (fun param => "DB_" +++ upper param) params).

(** rol_management.py, [load_db_config]. *)
Definition load_db_config : P config :=
  port <- int (match getenv "DB_PORT" with Some s => s | None => "1521" end) ;;
  let c : config :=
    [("user", getenv_value getenv "DB_USER");
     ("password", getenv_value getenv "DB_PASSWORD");
     ("host", getenv_value getenv "DB_HOST");
     ("port", Py.VInt port);
     ("sid", getenv_value getenv "DB_SID");
     ("service", getenv_value getenv "DB_SERVICE")] in
  match missing_params c with
  | _ :: _ =>
      lift (print Stderr ("Error: Faltan vairables de entorno: "
                          +++ env_names (missing_params c))) ;;
      lift (print Stderr
              "Por favor revisar que el .env tenga todas las variables requeridas. Referir a la documentacion.") ;;
      sys_exit 1
  | [] => pret c
  end.

(** rol_management.py, [connect_to_db]. *)
Definition connect_to_db (c : config) : P RoleManager.conn_ref :=
  match attempt with
  | None => pret RoleManager.TheConnection
  | Some e =>
      lift (print Stderr ("Error de conexion con la DB: " +++ Db.ora_str e)) ;;
      sys_exit 1
  end.

(** The command line once [argparse] has accepted it. *)
Inductive action : Type := Check | Grant | ListRoles.

Record args := mkArgs {
  arg_action : action;
  arg_user_name : option string;
  arg_roles : option string
}.

Definition text_of (v : option string) : string :=
  match v with
  | Some s => s
  | None => EmptyString
  end.

(** [[int(role_id.strip()) for role_id in pieces]] *)
Fixpoint int_each (pieces : list string) : P (list Z) :=
  match pieces with
  | [] => pret []
  | piece :: rest =>
      n <- int (py_strip piece) ;;
      ns <- int_each rest ;;
      pret (n :: ns)
  end.

(** The [except ValueError as e] clause of [main]. *)
Definition except_value_error (s : raised) : option (P unit) :=
  match s with
  | Exc (ValueError text) =>
      Some (lift (print Stderr ("Error: " +++ text)) ;; sys_exit 1)
  | _ => None
  end.

(** The block under [try] in [main]. *)
Definition main_try (role_manager : RoleManager.t) (a : args) : P unit :=
  match arg_action a with
  | ListRoles =>
      lift (RoleManager.list_all_roles role_manager) ;;
      pret tt
  | act =>
      if (negb (given (arg_user_name a)) || negb (given (arg_roles a)))%bool then
        lift (print Stderr
                "Error: --user_name y --roles son requeridos para acciones check y grant") ;;
        sys_exit 1
      else
        roles <- int_each (split_commas (text_of (arg_roles a))) ;;
        let users := map py_strip (split_commas (text_of (arg_user_name a))) in
        match act with
        | Grant =>
            for_each users (fun user =>
              for_each roles (fun role_id =>
                lift (RoleManager.grant_role role_manager user role_id) ;;
                pret tt))
        | Check =>
            for_each users (fun user =>
              for_each roles (fun role_id =>
                lift (RoleManager.check_user_role role_manager user role_id) ;;
                pret tt))
        | ListRoles => pret tt
        end
  end.

(** rol_management.py, [main]. *)
Definition main (a : args) : P unit :=
  db_config <- load_db_config ;;
  connection <- connect_to_db db_config ;;
  role_manager <- lift (RoleManager.init connection) ;;
  try_finally
    (try_except (main_try role_manager a) except_value_error)
    (if RoleManager.no_connection connection then pret tt else close).

(** *** api.py *)

(** api.py, the second [load_db_config] (line 29), which replaces the
    first (line 14).  [dotenv_path] is the path built from [__file__] and
    [load_success] what [load_dotenv] returned. *)
Variable dotenv_path : string.
Variable load_success : bool.

Definition api_load_db_config : P config :=
  lift (print Stdout "--- DEBUG: Iniciando load_db_config ---") ;;
  lift (print Stdout ("--- DEBUG: Buscando .env en: " +++ dotenv_path +++ " ---")) ;;
  lift (print Stdout ("--- DEBUG: ¿Archivo .env cargado con éxito? "
                      +++ (if load_success then "True" else "False") +++ " ---")) ;;
  port <- int (match getenv "DB_PORT" with Some s => s | None => "1521" end) ;;
  let c : config :=
    [("user", getenv_value getenv "DB_USER");
     ("password", getenv_value getenv "DB_PASSWORD");
     ("host", getenv_value getenv "DB_HOST");
     ("port", Py.VInt port);
     ("sid", getenv_value getenv "DB_SID")] in
  lift (print Stdout ("--- DEBUG: DB_USER leído: "
                      +++ str_of_value (config_get c "user") +++ " ---")) ;;
  match missing_params c with
  | _ :: _ =>
      lift (print Stderr ("Error: Faltan variables de entorno: "
                          +++ env_names (missing_params c))) ;;
      lift (print Stderr ("Asegúrate que el archivo '" +++ dotenv_path
                          +++ "' exista (¡sin .txt!), tenga codificación UTF-8 y todas las claves.")) ;;
      sys_exit 1
  | [] => pret c
  end.

(** api.py, [connect_to_db]: as in rol_management.py, without the call of
    [init_oracle_client]. *)
Definition api_connect_to_db (c : config) : P RoleManager.conn_ref :=
  match attempt with
  | None => pret RoleManager.TheConnection
  | Some e =>
      lift (print Stderr ("Error de conexion con la DB: " +++ Db.ora_str e)) ;;
      sys_exit 1
  end.

(** The [except Exception as e] clause of the start-up code. *)
Definition except_exception (s : raised) : option (P (option RoleManager.t)) :=
  match s with
  | Exc e =>
      Some (lift (print Stderr ("Error fatal al inicializar la app: " +++ exn_str e)) ;;
            pret None)
  | SysExit _ => None
  end.

(** api.py, lines 335-349: the value of the global [role_manager] once
    the module has been loaded. *)
Definition startup : P (option RoleManager.t) :=
  try_except
    (db_config <- api_load_db_config ;;
     connection <- api_connect_to_db db_config ;;
     if RoleManager.no_connection connection then
       lift (print Stderr "ERROR: No se pudo conectar a la base de datos.") ;;
       pret None
     else
       role_manager <- lift (RoleManager.init connection) ;;
       lift (print Stdout "¡Conexión a Oracle DB exitosa!") ;;
       pret (Some role_manager))
    except_exception.

End Builtins.

End Proc.

(** ** Vocabulary for the process *)


(** A piece of the process that leaves the data of the database alone,
    whatever state it starts in. *)
Definition keeps_data {A} (m : Proc.P A) : Prop :=
  forall p, same_data (Proc.world p) (Proc.world (snd (m p))).

(** The four variables [load_db_config] insists on, and the ones among
    them that an environment leaves unset or empty. *)
Definition required_variables : list string :=
  ["DB_USER"; "DB_PASSWORD"; "DB_HOST"; "DB_SID"].

Definition unset_variables (getenv : string -> option string) : list string :=
  filter (fun name => negb (Proc.given (getenv name))) required_variables.

(** The text [int] is applied to for the port. *)
Definition port_text (getenv : string -> option string) : string :=
  match getenv "DB_PORT" with
  | Some s => s
  | None => "1521"
  end.

(** Sample builtins and environments: an [int] that knows a few numerals
    and refuses the rest as Python words it, and a [strip] that has
    nothing to strip. *)
Module Demo.

Definition int (s : string) : Z + string :=
  if String.eqb s "1521" then inl 1521
  else if String.eqb s "5" then inl 5
  else if String.eqb s "7" then inl 7
  else inr ("invalid literal for int() with base 10: '" +++ s +++ "'").

Definition strip (s : string) : string := s.

Definition full_env (name : string) : option string :=
  if String.eqb name "DB_USER" then Some "ue21"
  else if String.eqb name "DB_PASSWORD" then Some "secret"
  else if String.eqb name "DB_HOST" then Some "db.example.org"
  else if String.eqb name "DB_SID" then Some "XE"
  else None.

(** No password, and an empty host. *)
Definition partial_env (name : string) : option string :=
  if String.eqb name "DB_USER" then Some "ue21"
  else if String.eqb name "DB_HOST" then Some EmptyString
  else if String.eqb name "DB_SID" then Some "XE"
  else None.

(** Everything set, but a port that is no number. *)
Definition bad_port_env (name : string) : option string :=
  if String.eqb name "DB_PORT" then Some "abc" else full_env name.

Definition start (db : Db.Database) : Proc.Process :=
  Proc.mkProcess (Sample.world_of db) false.

End Demo.

(** The configuration [load_db_config] returns for an environment that
    has what it needs, in rol_management.py and in api.py. *)
Definition loaded_config (getenv : string -> option string) (port : Z) : Proc.config :=
  [("user", Proc.getenv_value getenv "DB_USER");
   ("password", Proc.getenv_value getenv "DB_PASSWORD");
   ("host", Proc.getenv_value getenv "DB_HOST");
   ("port", Py.VInt port);
   ("sid", Proc.getenv_value getenv "DB_SID");
   ("service", Proc.getenv_value getenv "DB_SERVICE")].

Definition api_loaded_config (getenv : string -> option string) (port : Z) : Proc.config :=
  [("user", Proc.getenv_value getenv "DB_USER");
   ("password", Proc.getenv_value getenv "DB_PASSWORD");
   ("host", Proc.getenv_value getenv "DB_HOST");
   ("port", Py.VInt port);
   ("sid", Proc.getenv_value getenv "DB_SID")].


(** * Properties *)

(** ** Dictionaries and [sorted] *)

Section SortedFacts.

Lemma insert_perm (x : Z * string) (l : list (Z * string)) :
  Permutation (Py.insert x l) (x :: l).
Proof.
  induction l as [|y l IH]; simpl.
  - apply Permutation_refl.
  - destruct (Py.tuple_lt y x).
    + eapply perm_trans; [apply perm_skip, IH | apply perm_swap].
    + apply Permutation_refl.
Qed.

Lemma sorted_perm (l : list (Z * string)) : Permutation (Py.sorted l) l.
Proof.
  induction l as [|x l IH]; simpl.
  - constructor.
  - eapply perm_trans; [apply insert_perm | apply perm_skip, IH].
Qed.

(** On pairs with different ids the tuple order is the order of the ids. *)
Lemma tuple_lt_ids (a b : Z * string) :
  fst a <> fst b -> Py.tuple_lt a b = (fst a <? fst b).
Proof.
  intros Hne. unfold Py.tuple_lt.
  destruct (Z.eqb_spec (fst a) (fst b)) as [E|_]; [contradiction|].
  simpl. apply orb_false_r.
Qed.

Lemma insert_ascending (x : Z * string) (l : list (Z * string)) :
  ascending l -> ~ In (fst x) (map fst l) -> ascending (Py.insert x l).
Proof.
  unfold ascending. induction l as [|y l IH]; intros Hs Hni; simpl.
  - repeat constructor.
  - apply StronglySorted_inv in Hs. destruct Hs as [Hs Hall].
    assert (Hne : fst y <> fst x) by (intros E; apply Hni; left; exact E).
    rewrite (tuple_lt_ids _ _ Hne).
    destruct (Z.ltb_spec (fst y) (fst x)) as [Hlt|Hge].
    + constructor.
      * apply IH; [exact Hs | intros Hin; apply Hni; right; exact Hin].
      * rewrite Forall_forall in *. intros z Hz.
        apply (Permutation_in _ (insert_perm x l)) in Hz.
        destruct Hz as [<-|Hz]; [exact Hlt | apply Hall, Hz].
    + assert (Hxy : fst x < fst y) by lia.
      constructor.
      * constructor; assumption.
      * constructor; [exact Hxy|].
        rewrite Forall_forall in *. intros z Hz.
        specialize (Hall z Hz). lia.
Qed.

Lemma sorted_ascending (l : list (Z * string)) :
  NoDup (map fst l) -> ascending (Py.sorted l).
Proof.
  induction l as [|x l IH]; intros Hnd; simpl.
  - constructor.
  - inversion Hnd as [|? ? Hni Hnd']; subst.
    apply insert_ascending; [apply IH, Hnd'|].
    intros Hin. apply Hni.
    apply (Permutation_in _ (Permutation_map fst (sorted_perm l))), Hin.
Qed.

(** An ascending list is determined by its elements. *)
Lemma ascending_perm_eq (l1 l2 : list (Z * string)) :
  ascending l1 -> ascending l2 -> Permutation l1 l2 -> l1 = l2.
Proof.
  unfold ascending. revert l2.
  induction l1 as [|a l1 IH]; intros l2 H1 H2 HP.
  - apply Permutation_nil in HP. now subst.
  - destruct l2 as [|b l2].
    + apply Permutation_sym, Permutation_nil in HP. discriminate.
    + apply StronglySorted_inv in H1. destruct H1 as [H1 A1].
      apply StronglySorted_inv in H2. destruct H2 as [H2 A2].
      rewrite Forall_forall in A1, A2.
      assert (Hab : a = b).
      { assert (Ha : In a (b :: l2)) by (apply (Permutation_in _ HP); now left).
        assert (Hb : In b (a :: l1))
          by (apply (Permutation_in _ (Permutation_sym HP)); now left).
        destruct Ha as [Ha|Ha]; [now symmetry|].
        destruct Hb as [Hb|Hb]; [assumption|].
        specialize (A1 _ Hb). specialize (A2 _ Ha). lia. }
      subst b. f_equal.
      apply IH; [assumption | assumption |].
      apply Permutation_cons_inv with (a := a). exact HP.
Qed.

Lemma dict_set_fresh (d : Py.dict) (k : Z) (v : string) :
  ~ In k (map fst d) -> Py.dict_set Z.eqb d k v = d ++ [(k, v)].
Proof.
  induction d as [|[k' v'] d IH]; intros Hni; simpl.
  - reflexivity.
  - destruct (Z.eqb_spec k' k) as [E|_].
    + exfalso. apply Hni. now left.
    + f_equal. apply IH. intros Hin. apply Hni. now right.
Qed.

Lemma dict_set_keys (d : Py.dict) (k : Z) (v : string) :
  In k (map fst d) -> map fst (Py.dict_set Z.eqb d k v) = map fst d.
Proof.
  induction d as [|[k' v'] d IH]; intros Hin; simpl.
  - destruct Hin.
  - destruct (Z.eqb_spec k' k) as [E|Hne]; simpl.
    + reflexivity.
    + f_equal. apply IH. destruct Hin as [E|Hin]; [contradiction | exact Hin].
Qed.

Lemma dict_set_nodup (d : Py.dict) (k : Z) (v : string) :
  NoDup (map fst d) -> NoDup (map fst (Py.dict_set Z.eqb d k v)).
Proof.
  intros Hnd. destruct (in_dec Z.eq_dec k (map fst d)) as [Hin|Hni].
  - now rewrite dict_set_keys.
  - rewrite dict_set_fresh by assumption.
    rewrite map_app. simpl.
    apply NoDup_app; [assumption | repeat constructor; intros [] |].
    intros x Hx [<-|[]]. contradiction.
Qed.

Lemma dict_fold_nodup (rows : list (Z * string)) (d : Py.dict) :
  NoDup (map fst d) ->
  NoDup (map fst (fold_left (fun d kv => Py.dict_set Z.eqb d (fst kv) (snd kv)) rows d)).
Proof.
  revert d. induction rows as [|r rows IH]; intros d Hnd; simpl.
  - exact Hnd.
  - apply IH, dict_set_nodup, Hnd.
Qed.

(** The keys of a dictionary built from rows are pairwise different. *)
Lemma dict_of_pairs_nodup (rows : list (Z * string)) :
  NoDup (map fst (Py.dict_of_pairs Z.eqb rows)).
Proof. apply dict_fold_nodup. constructor. Qed.

Lemma dict_fold_distinct (rows : list (Z * string)) (d : Py.dict) :
  NoDup (map fst (d ++ rows)) ->
  fold_left (fun d kv => Py.dict_set Z.eqb d (fst kv) (snd kv)) rows d = d ++ rows.
Proof.
  revert d. induction rows as [|[k v] rows IH]; intros d Hnd; simpl.
  - now rewrite app_nil_r.
  - assert (Hni : ~ In k (map fst d)).
    { rewrite map_app in Hnd. simpl in Hnd.
      apply NoDup_remove_2 in Hnd. intros Hin. apply Hnd.
      apply in_or_app. now left. }
    rewrite dict_set_fresh by exact Hni.
    rewrite IH; rewrite <- app_assoc; simpl; [reflexivity | exact Hnd].
Qed.

(** Rows with pairwise different ids load into the dictionary as they
    come. *)
Lemma dict_of_pairs_distinct (rows : list (Z * string)) :
  NoDup (map fst rows) -> Py.dict_of_pairs Z.eqb rows = rows.
Proof. intros Hnd. apply (dict_fold_distinct rows []). exact Hnd. Qed.

Lemma dict_get_in (d : Py.dict) (k : Z) (v : string) :
  NoDup (map fst d) -> (Py.dict_get Z.eqb d k = Some v <-> In (k, v) d).
Proof.
  induction d as [|[k' v'] d IH]; intros Hnd; simpl.
  - split; [discriminate | intros []].
  - inversion Hnd as [|? ? Hni Hnd']; subst.
    destruct (Z.eqb_spec k' k) as [E|Hne].
    + subst k'. split.
      * intros [= ->]. now left.
      * intros [[= ->]|Hin]; [reflexivity|].
        exfalso. apply Hni. apply (in_map fst) in Hin. exact Hin.
    + rewrite (IH Hnd'). split.
      * intros Hin. now right.
      * intros [[= E _]|Hin]; [contradiction | exact Hin].
Qed.

End SortedFacts.

(** ** Running the primitives and the methods

    Each lemma gives the result and the world one call leaves, as a
    function of the world it starts in. *)

Section Runs.

Lemma quiet_next (w : World) : quiet (faults w) = true -> next_fault w = None.
Proof.
  unfold next_fault. destruct (faults w) as [|[e|] fs]; simpl; congruence.
Qed.

Lemma quiet_tl (fs : list (option Db.ora_error)) : quiet fs = true -> quiet (tl fs) = true.
Proof.
  destruct fs as [|[e|] fs]; simpl; congruence.
Qed.

Lemma execute_query_run {A} (stmt : Db.statement) (q : Db.Database -> A) (w : World) :
  execute_query stmt q w =
  match next_fault w with
  | None => (Ret (q (session w)), after_call (Db.Execute stmt) w)
  | Some e => (Raise (OracleError e), after_call (Db.Execute stmt) w)
  end.
Proof.
  unfold execute_query, bind, log_call, take_fault, after_call.
  change (next_fault (add_call (Db.Execute stmt) w)) with (next_fault w).
  destruct (next_fault w); reflexivity.
Qed.

Lemma execute_insert_run (g : Db.grant) (w : World) :
  execute_insert g w =
  let w' := after_call
              (Db.Execute (Db.InsertGrant (Db.g_id g) (Db.g_rol_id g) (Db.g_usr_id g))) w in
  match next_fault w with
  | Some e => (Raise (OracleError e), w')
  | None =>
      if Db.fk_ok (session w) g
      then (Ret tt, set_session (Db.add_grant g (session w)) w')
      else (Raise (OracleError Db.ora_02291), w')
  end.
Proof.
  unfold execute_insert, bind, log_call, take_fault, after_call.
  match goal with |- context [next_fault (add_call ?c w)] =>
    change (next_fault (add_call c w)) with (next_fault w) end.
  destruct (next_fault w); reflexivity.
Qed.

Lemma commit_run (w : World) :
  commit w =
  let w' := after_call Db.Commit w in
  match next_fault w with
  | Some e => (Raise (OracleError e), w')
  | None => (Ret tt, set_committed (session w') w')
  end.
Proof.
  unfold commit, bind, log_call, take_fault, after_call.
  change (next_fault (add_call Db.Commit w)) with (next_fault w).
  destruct (next_fault w); reflexivity.
Qed.

Lemma get_user_id_run (self : RoleManager.t) (user : string) (w : World) :
  RoleManager.connection self = RoleManager.TheConnection ->
  RoleManager.get_user_id self user w = (Ret (resolved w user), after_resolve w user).
Proof.
  intros Hc. unfold RoleManager.get_user_id. rewrite Hc.
  unfold RoleManager.cursor, try_finally, try_except, cursor_close, ret.
  unfold bind at 1 2. rewrite execute_query_run.
  unfold resolved, after_resolve, msg_user_lookup.
  destruct (next_fault w); reflexivity.
Qed.

Lemma handler_run (role_id : Z) (e : Db.ora_error) (w : World) :
  match RoleManager.grant_role_handler role_id (OracleError e) with
  | Some h => h w
  | None => (Raise (OracleError e), w)
  end = grant_failure role_id e w.
Proof.
  destruct e as [text|text]; simpl; unfold grant_failure, failure_line.
  - destruct (Py.str_contains "ORA-02291" text); reflexivity.
  - reflexivity.
Qed.

Lemma grant_role_run (self : RoleManager.t) (user : string) (role_id : Z) (w : World) :
  RoleManager.connection self = RoleManager.TheConnection ->
  RoleManager.grant_role self user role_id w =
  let v := resolved w user in
  let w1 := after_resolve w user in
  if negb (Py.truthy v) then
    (Ret false, add_output (Stderr, RoleManager.msg_user_missing user) w1)
  else if negb (RoleManager.role_exists self role_id) then
    (Ret false, add_output (Stderr, RoleManager.msg_role_missing role_id) w1)
  else
    let uid := Py.int_of v in
    let w2 := after_call (Db.Execute (Db.SelectGrant role_id uid)) w1 in
    match next_fault w1 with
    | Some e => grant_failure role_id e w2
    | None =>
        match Db.select_grant (session w1) role_id uid with
        | _ :: _ =>
            (Ret true,
             add_output (Stdout, RoleManager.msg_already user role_id
                                   (RoleManager.role_name self role_id)) w2)
        | [] =>
            let w3 := after_call (Db.Execute Db.SelectMaxId) w2 in
            match next_fault w2 with
            | Some e => grant_failure role_id e w3
            | None =>
                let g := new_grant (session w2) role_id uid in
                let w4 := after_call
                            (Db.Execute (Db.InsertGrant (Db.g_id g) role_id uid)) w3 in
                match next_fault w3 with
                | Some e => grant_failure role_id e w4
                | None =>
                    if Db.fk_ok (session w3) g then
                      let w5 := set_session (Db.add_grant g (session w3)) w4 in
                      let w6 := after_call Db.Commit w5 in
                      match next_fault w5 with
                      | Some e => grant_failure role_id e w6
                      | None =>
                          (Ret true,
                           add_output (Stdout, RoleManager.msg_granted user role_id
                                                 (RoleManager.role_name self role_id))
                             (set_committed (session w6) w6))
                      end
                    else grant_failure role_id Db.ora_02291 w4
                end
            end
        end
    end.
Proof.
  intros Hc. unfold RoleManager.grant_role. rewrite Hc.
  unfold RoleManager.no_connection, RoleManager.cursor, try_finally, try_except,
    cursor_close, ret.
  unfold bind at 1 2. rewrite (get_user_id_run self user w Hc).
  cbv zeta.
  destruct (negb (Py.truthy (resolved w user))); [reflexivity|].
  destruct (negb (RoleManager.role_exists self role_id)); [reflexivity|].
  unfold bind at 1. rewrite execute_query_run.
  destruct (next_fault (after_resolve w user)) as [e|];
    [rewrite handler_run; reflexivity|].
  unfold fetchone.
  destruct (Db.select_grant _ _ _) as [|x xs]; [|reflexivity].
  cbn [hd_error].
  unfold bind at 1. rewrite execute_query_run.
  destruct (next_fault _) as [e|]; [rewrite handler_run; reflexivity|].
  unfold bind at 1. rewrite execute_insert_run. cbv zeta.
  destruct (next_fault _) as [e|]; [rewrite handler_run; reflexivity|].
  unfold new_grant. simpl Db.g_id. simpl Db.g_rol_id. simpl Db.g_usr_id.
  destruct (Db.fk_ok _ _); [|rewrite handler_run; reflexivity].
  unfold bind at 1. rewrite commit_run. cbv zeta.
  destruct (next_fault _) as [e|]; [rewrite handler_run; reflexivity|].
  reflexivity.
Qed.

Lemma check_user_role_run (self : RoleManager.t) (user : string) (role_id : Z) (w : World) :
  RoleManager.connection self = RoleManager.TheConnection ->
  RoleManager.check_user_role self user role_id w =
  let v := resolved w user in
  let w1 := after_resolve w user in
  if negb (Py.truthy v) then
    (Ret false, add_output (Stderr, RoleManager.msg_user_missing user) w1)
  else if negb (RoleManager.role_exists self role_id) then
    (Ret false, add_output (Stderr, RoleManager.msg_role_missing role_id) w1)
  else
    let uid := Py.int_of v in
    let w2 := after_call (Db.Execute (Db.SelectGrant role_id uid)) w1 in
    match next_fault w1 with
    | Some e => (Ret false, add_output (Stderr, RoleManager.msg_check_failed e) w2)
    | None =>
        match Db.select_grant (session w1) role_id uid with
        | _ :: _ =>
            (Ret true,
             add_output (Stdout, RoleManager.msg_has_role user role_id
                                   (RoleManager.role_name self role_id)) w2)
        | [] =>
            (Ret false,
             add_output (Stdout, RoleManager.msg_lacks_role user role_id
                                   (RoleManager.role_name self role_id)) w2)
        end
    end.
Proof.
  intros Hc. unfold RoleManager.check_user_role. rewrite Hc.
  unfold RoleManager.no_connection, RoleManager.cursor, try_finally, try_except,
    cursor_close, ret.
  unfold bind at 1 2. rewrite (get_user_id_run self user w Hc).
  cbv zeta.
  destruct (negb (Py.truthy (resolved w user))); [reflexivity|].
  destruct (negb (RoleManager.role_exists self role_id)); [reflexivity|].
  unfold bind at 1. rewrite execute_query_run.
  destruct (next_fault (after_resolve w user)) as [e|]; [reflexivity|].
  unfold fetchone.
  destruct (Db.select_grant _ _ _) as [|x xs]; reflexivity.
Qed.

(** The data and the trace of the world [get_user_id] leaves. *)
Lemma after_resolve_session (w : World) (user : string) :
  session (after_resolve w user) = session w.
Proof. unfold after_resolve. destruct (next_fault w); reflexivity. Qed.

Lemma after_resolve_committed (w : World) (user : string) :
  committed (after_resolve w user) = committed w.
Proof. unfold after_resolve. destruct (next_fault w); reflexivity. Qed.

Lemma after_resolve_calls (w : World) (user : string) :
  calls (after_resolve w user) = calls w ++ [Db.Execute (Db.SelectUser user)].
Proof. unfold after_resolve. destruct (next_fault w); reflexivity. Qed.

Lemma after_resolve_faults (w : World) (user : string) :
  faults (after_resolve w user) = tl (faults w).
Proof. unfold after_resolve. destruct (next_fault w); reflexivity. Qed.

Lemma after_resolve_output (w : World) (user : string) :
  output (after_resolve w user) =
  output w ++ match next_fault w with
              | None => []
              | Some e => [(Stderr, msg_user_lookup user e)]
              end.
Proof.
  unfold after_resolve. destruct (next_fault w); simpl.
  - reflexivity.
  - now rewrite app_nil_r.
Qed.

End Runs.

(** ** Building a manager *)

Section Construction.

Lemma init_run (w : World) :
  RoleManager.init RoleManager.TheConnection w =
  match next_fault w with
  | None =>
      let roles := Py.dict_of_pairs Z.eqb (Db.ue_roles (session w)) in
      (Ret (RoleManager.mk RoleManager.TheConnection roles (RoleManager.index_by_name roles)),
       after_call (Db.Execute Db.SelectRoles) w)
  | Some e =>
      (Ret (RoleManager.mk RoleManager.TheConnection [] (RoleManager.index_by_name [])),
       add_output (Stderr, "Error cargando roles: " +++ Db.ora_str e)
         (after_call (Db.Execute Db.SelectRoles) w))
  end.
Proof.
  unfold RoleManager.init, RoleManager.load_roles_from_db.
  unfold RoleManager.no_connection, RoleManager.cursor, try_finally, try_except,
    cursor_close, ret.
  unfold bind at 1 2 3. rewrite execute_query_run.
  destruct (next_fault w); reflexivity.
Qed.

(** Without a connection the constructor raises [ValueError]. *)
Lemma init_no_connection (w : World) :
  RoleManager.init RoleManager.NoConnection w =
  (Raise (ValueError "Una conexion con la base de datos es requerida."), w).
Proof. reflexivity. Qed.

(** A manager that exists holds the connection. *)
Lemma init_connection (c : RoleManager.conn_ref) (w w' : World) (self : RoleManager.t) :
  RoleManager.init c w = (Ret self, w') ->
  RoleManager.connection self = RoleManager.TheConnection.
Proof.
  destruct c.
  - rewrite init_no_connection. discriminate.
  - rewrite init_run. destruct (next_fault w); intros [= <- _]; reflexivity.
Qed.

End Construction.

(** ** A user the resolver does not accept *)

Section UserNotAccepted.

Variables (self : RoleManager.t) (user : string) (role_id : Z) (w : World).
Hypothesis Hconn : RoleManager.connection self = RoleManager.TheConnection.

Lemma world_user_missing :
  let w' := add_output (Stderr, RoleManager.msg_user_missing user) (after_resolve w user) in
  same_data w w' /\
  calls_between w w' [Db.Execute (Db.SelectUser user)] /\
  printed_between w w' (user_missing_lines w user).
Proof.
  unfold same_data, calls_between, printed_between, user_missing_lines. simpl.
  rewrite after_resolve_committed, after_resolve_session, after_resolve_calls,
    after_resolve_output, <- app_assoc.
  repeat split.
Qed.

Lemma check_user_role_falsy_user :
  Py.truthy (resolved w user) = false ->
  RoleManager.check_user_role self user role_id w =
  (Ret false, add_output (Stderr, RoleManager.msg_user_missing user) (after_resolve w user)).
Proof.
  intros Hf. rewrite check_user_role_run by exact Hconn. cbv zeta.
  now rewrite Hf.
Qed.

Lemma grant_role_falsy_user :
  Py.truthy (resolved w user) = false ->
  RoleManager.grant_role self user role_id w =
  (Ret false, add_output (Stderr, RoleManager.msg_user_missing user) (after_resolve w user)).
Proof.
  intros Hf. rewrite grant_role_run by exact Hconn. cbv zeta.
  now rewrite Hf.
Qed.

End UserNotAccepted.

(** ** Users the code reports as missing *)

(** C6.  For every login name with no matching row in the users table,
    [check_user_role] and [grant_role] both return [False] after printing
    the warning that the user does not exist, and neither changes the
    data: the only call made is the SELECT on the users table.  This holds
    whatever the driver does. *)
Theorem unknown_user_not_found
    (self : RoleManager.t) (user : string) (role_id : Z) (w : World) :
  RoleManager.connection self = RoleManager.TheConnection ->
  Db.select_user (session w) user = [] ->
  user_not_found_outcome w user (RoleManager.check_user_role self user role_id w) /\
  user_not_found_outcome w user (RoleManager.grant_role self user role_id w).
Proof.
  intros Hc Hu.
  assert (Hf : Py.truthy (resolved w user) = false).
  { unfold resolved. rewrite Hu. destruct (next_fault w); reflexivity. }
  rewrite (check_user_role_falsy_user self user role_id w Hc Hf).
  rewrite (grant_role_falsy_user self user role_id w Hc Hf).
  unfold user_not_found_outcome. simpl fst. simpl snd.
  destruct (world_user_missing user w) as (Hd & Hcalls & Hout).
  repeat split; assumption || apply Hd.
Qed.

Lemma unknown_user_not_found_witness :
  user_not_found_outcome (Sample.world_of Sample.db_alice) "bob"
    (RoleManager.check_user_role Sample.manager "bob" 5 (Sample.world_of Sample.db_alice)) /\
  user_not_found_outcome (Sample.world_of Sample.db_alice) "bob"
    (RoleManager.grant_role Sample.manager "bob" 5 (Sample.world_of Sample.db_alice)).
Proof.
  apply (unknown_user_not_found Sample.manager "bob" 5 (Sample.world_of Sample.db_alice));
    reflexivity.
Defined.

(** C9.  For every login name whose matching row has internal id 0,
    [check_user_role] and [grant_role] behave as for a login name with no
    row at all: the id is tested with [not user_id], which is true of 0 as
    it is of [None]. *)
Theorem user_id_zero_not_found
    (self : RoleManager.t) (user : string) (role_id : Z) (w : World) (others : list Z) :
  RoleManager.connection self = RoleManager.TheConnection ->
  Db.select_user (session w) user = 0 :: others ->
  user_not_found_outcome w user (RoleManager.check_user_role self user role_id w) /\
  user_not_found_outcome w user (RoleManager.grant_role self user role_id w).
Proof.
  intros Hc Hu.
  assert (Hf : Py.truthy (resolved w user) = false).
  { unfold resolved. rewrite Hu. destruct (next_fault w); reflexivity. }
  rewrite (check_user_role_falsy_user self user role_id w Hc Hf).
  rewrite (grant_role_falsy_user self user role_id w Hc Hf).
  unfold user_not_found_outcome. simpl fst. simpl snd.
  destruct (world_user_missing user w) as (Hd & Hcalls & Hout).
  repeat split; assumption || apply Hd.
Qed.

Lemma user_id_zero_not_found_witness :
  Db.select_user Sample.db_root "root" = [0] /\
  user_not_found_outcome (Sample.world_of Sample.db_root) "root"
    (RoleManager.check_user_role Sample.manager "root" 5 (Sample.world_of Sample.db_root)) /\
  user_not_found_outcome (Sample.world_of Sample.db_root) "root"
    (RoleManager.grant_role Sample.manager "root" 5 (Sample.world_of Sample.db_root)).
Proof.
  split; [reflexivity|].
  apply (user_id_zero_not_found Sample.manager "root" 5 (Sample.world_of Sample.db_root) []);
    reflexivity.
Defined.

(** ** Roles the catalog does not hold *)

(** A login name resolved to a non-zero id, with a role id outside the
    catalog: both methods stop at the role check. *)
Lemma unknown_role_not_found
    (self : RoleManager.t) (user : string) (role_id uid : Z) (w : World) :
  RoleManager.connection self = RoleManager.TheConnection ->
  resolved w user = Some uid ->
  uid <> 0 ->
  RoleManager.role_exists self role_id = false ->
  role_not_found_outcome w user role_id (RoleManager.check_user_role self user role_id w) /\
  role_not_found_outcome w user role_id (RoleManager.grant_role self user role_id w).
Proof.
  intros Hc Hr Hnz Hno.
  assert (Hnf : next_fault w = None).
  { unfold resolved in Hr. destruct (next_fault w); [discriminate | reflexivity]. }
  assert (Ht : Py.truthy (resolved w user) = true).
  { rewrite Hr. simpl. destruct (Z.eqb_spec uid 0); [contradiction | reflexivity]. }
  rewrite check_user_role_run, grant_role_run by exact Hc. cbv zeta.
  rewrite Ht, Hno. cbn [negb].
  unfold role_not_found_outcome, same_data, calls_between, printed_between.
  simpl fst. simpl snd. simpl.
  rewrite after_resolve_committed, after_resolve_session, after_resolve_calls,
    after_resolve_output, Hnf, app_nil_r.
  repeat split.
Qed.

(** C5, at a user whose id is 0.  The login name "root" resolves to the
    existing user 0 and role 7 is not in the catalog, yet both methods
    report that the user does not exist, not that the role does not. *)
Theorem unknown_role_user_zero :
  let w := Sample.world_of Sample.db_root in
  resolved w "root" = Some 0 /\
  RoleManager.role_exists Sample.manager 7 = false /\
  RoleManager.check_user_role Sample.manager "root" 7 w =
    (Ret false,
     {| committed := Sample.db_root; session := Sample.db_root; faults := [];
        calls := [Db.Execute (Db.SelectUser "root")];
        output := [(Stderr, "Warning: Usuario 'root' no existente")] |}) /\
  RoleManager.grant_role Sample.manager "root" 7 w =
    RoleManager.check_user_role Sample.manager "root" 7 w /\
  ~ role_not_found_outcome w "root" 7 (RoleManager.check_user_role Sample.manager "root" 7 w) /\
  ~ role_not_found_outcome w "root" 7 (RoleManager.grant_role Sample.manager "root" 7 w).
Proof.
  cbv zeta. repeat split; try reflexivity.
  - intros (_ & Hout & _). vm_compute in Hout. discriminate.
  - intros (_ & Hout & _). vm_compute in Hout. discriminate.
Qed.

(** ** Driver errors during a membership check *)

(** C10.  When the driver raises an [oracledb.Error] in the user lookup,
    or in the membership query that follows a successful lookup,
    [check_user_role] returns [False] and raises nothing; a user who
    simply lacks the role gets the same [False]. *)
Theorem check_user_role_driver_error
    (self : RoleManager.t) (user : string) (role_id : Z) (w : World) (e : Db.ora_error) :
  RoleManager.connection self = RoleManager.TheConnection ->
  next_fault w = Some e \/ (next_fault w = None /\ next_fault (tick w) = Some e) ->
  fst (RoleManager.check_user_role self user role_id w) = Ret false /\
  (forall w0 : World,
      quiet (faults w0) = true ->
      Py.truthy (resolved w0 user) = true ->
      RoleManager.role_exists self role_id = true ->
      Db.select_grant (session w0) role_id (Py.int_of (resolved w0 user)) = [] ->
      fst (RoleManager.check_user_role self user role_id w0) =
      fst (RoleManager.check_user_role self user role_id w)).
Proof.
  intros Hc Hfault.
  assert (Hfalse : fst (RoleManager.check_user_role self user role_id w) = Ret false).
  { rewrite check_user_role_run by exact Hc. cbv zeta.
    destruct Hfault as [H1 | [H1 H2]].
    - unfold resolved. rewrite H1. reflexivity.
    - destruct (negb (Py.truthy (resolved w user))); [reflexivity|].
      destruct (negb (RoleManager.role_exists self role_id)); [reflexivity|].
      assert (H3 : next_fault (after_resolve w user) = Some e).
      { unfold after_resolve. rewrite H1. exact H2. }
      rewrite H3. reflexivity. }
  split; [exact Hfalse|].
  intros w0 Hq Ht Hr Hg. rewrite Hfalse.
  rewrite check_user_role_run by exact Hc. cbv zeta.
  rewrite Ht, Hr. cbn [negb].
  assert (H1 : next_fault (after_resolve w0 user) = None).
  { apply quiet_next. rewrite after_resolve_faults. apply quiet_tl, Hq. }
  rewrite H1, after_resolve_session, Hg. reflexivity.
Qed.

Lemma check_user_role_driver_error_witness :
  fst (RoleManager.check_user_role Sample.manager "alice" 5 Sample.world_failing_first)
    = Ret false /\
  fst (RoleManager.check_user_role Sample.manager "alice" 5 Sample.world_failing_second)
    = Ret false.
Proof.
  split.
  - refine (proj1 (check_user_role_driver_error Sample.manager "alice" 5
                     Sample.world_failing_first Sample.lost_contact _ _));
      [reflexivity | left; reflexivity].
  - refine (proj1 (check_user_role_driver_error Sample.manager "alice" 5
                     Sample.world_failing_second Sample.lost_contact _ _));
      [reflexivity | right; split; reflexivity].
Defined.

(** ** Listing the roles *)

Section Listing.

Lemma add_outputs_output (lines : list (stream * string)) (w : World) :
  output (add_outputs lines w) = output w ++ lines.
Proof.
  revert w. induction lines as [|l lines IH]; intros w.
  - simpl. now rewrite app_nil_r.
  - change (add_outputs (l :: lines) w) with (add_outputs lines (add_output l w)).
    rewrite IH. simpl. now rewrite <- app_assoc.
Qed.

Lemma add_outputs_rest (lines : list (stream * string)) (w : World) :
  committed (add_outputs lines w) = committed w /\
  session (add_outputs lines w) = session w /\
  faults (add_outputs lines w) = faults w /\
  calls (add_outputs lines w) = calls w.
Proof.
  revert w. induction lines as [|l lines IH]; intros w.
  - repeat split.
  - change (add_outputs (l :: lines) w) with (add_outputs lines (add_output l w)).
    destruct (IH (add_output l w)) as (H1 & H2 & H3 & H4).
    rewrite H1, H2, H3, H4. repeat split.
Qed.

Lemma print_all_run (s : stream) (lines : list string) (w : World) :
  RoleManager.print_all s lines w = (Ret tt, add_outputs (map (pair s) lines) w).
Proof.
  revert w. induction lines as [|l lines IH]; intros w; simpl.
  - reflexivity.
  - unfold bind, print. rewrite IH. reflexivity.
Qed.

Lemma list_all_roles_run (self : RoleManager.t) (w : World) :
  RoleManager.list_all_roles self w =
  if Py.dict_is_empty (RoleManager.roles self) then
    (Ret Py.VNone, add_output (Stderr, "No se encontraron roles en la DB") w)
  else
    (Ret Py.VNone,
     add_outputs
       (table_lines self (Py.sorted (Py.dict_items (RoleManager.roles self)))) w).
Proof.
  unfold RoleManager.list_all_roles.
  destruct (Py.dict_is_empty (RoleManager.roles self)); [reflexivity|].
  unfold bind at 1. rewrite print_all_run.
  unfold bind at 1. rewrite print_all_run.
  unfold bind, print, ret, table_lines, add_outputs.
  rewrite !map_app, !fold_left_app. reflexivity.
Qed.

(** The sorted items of a dictionary are its entries, by ascending id. *)
Lemma listing_of_catalog (rows : list (Z * string)) :
  let roles := Py.dict_of_pairs Z.eqb rows in
  let listing := Py.sorted (Py.dict_items roles) in
  ascending listing /\
  (forall id name, In (id, name) listing <-> Py.dict_get Z.eqb roles id = Some name).
Proof.
  cbv zeta. unfold Py.dict_items. split.
  - apply sorted_ascending, dict_of_pairs_nodup.
  - intros id name. rewrite (dict_get_in _ id name (dict_of_pairs_nodup rows)).
    split; intros H.
    + apply (Permutation_in _ (sorted_perm _)), H.
    + apply (Permutation_in _ (Permutation_sym (sorted_perm _))), H.
Qed.

(** Two loads of the same rows, in any order, list alike. *)
Lemma listing_order_free (rows rows' : list (Z * string)) :
  NoDup (map fst rows) -> Permutation rows rows' ->
  Py.sorted (Py.dict_items (Py.dict_of_pairs Z.eqb rows')) =
  Py.sorted (Py.dict_items (Py.dict_of_pairs Z.eqb rows)).
Proof.
  intros Hnd HP.
  assert (Hnd' : NoDup (map fst rows')).
  { eapply Permutation_NoDup; [apply Permutation_map, HP | exact Hnd]. }
  rewrite !dict_of_pairs_distinct by assumption. unfold Py.dict_items.
  apply ascending_perm_eq.
  - apply sorted_ascending, Hnd'.
  - apply sorted_ascending, Hnd.
  - eapply perm_trans; [apply sorted_perm|].
    eapply perm_trans; [apply Permutation_sym, HP|].
    apply Permutation_sym, sorted_perm.
Qed.

End Listing.

(** C7.  For a catalog loaded from a roles table, listing the roles gives
    the catalog's (id, name) pairs by strictly ascending id, whatever the
    order of the table's rows: the function [list_all_roles] of api.py
    returns them so under ["roles"], the method of the class prints them
    so, and a second load of the same rows in another order gives the
    same result and the same lines. *)
Theorem list_all_roles_ascending
    (rows rows' : list (Z * string)) (self self' : RoleManager.t) (w : World) :
  RoleManager.roles self = Py.dict_of_pairs Z.eqb rows ->
  RoleManager.roles self' = Py.dict_of_pairs Z.eqb rows' ->
  NoDup (map fst rows) ->
  Permutation rows rows' ->
  rows <> [] ->
  let listing := Py.sorted (Py.dict_items (RoleManager.roles self)) in
  ascending listing /\
  (forall id name,
      In (id, name) listing <-> Py.dict_get Z.eqb (RoleManager.roles self) id = Some name) /\
  Api.list_all_roles self =
    Py.VDict [("total", Py.VInt (Z.of_nat (List.length listing)));
              ("roles", Py.VList (map role_entry listing))] /\
  Api.list_all_roles self' = Api.list_all_roles self /\
  fst (RoleManager.list_all_roles self w) = Ret Py.VNone /\
  printed_between w (snd (RoleManager.list_all_roles self w)) (table_lines self listing) /\
  snd (RoleManager.list_all_roles self' w) = snd (RoleManager.list_all_roles self w).
Proof.
  intros Hload Hload' Hnd HP Hne. cbv zeta.
  assert (Hnd' : NoDup (map fst rows')).
  { eapply Permutation_NoDup; [apply Permutation_map, HP | exact Hnd]. }
  assert (Hne' : rows' <> []).
  { intros ->. apply Permutation_sym, Permutation_nil in HP. contradiction. }
  assert (Hfull : Py.dict_is_empty (RoleManager.roles self) = false).
  { rewrite Hload, dict_of_pairs_distinct by exact Hnd.
    destruct rows; [contradiction | reflexivity]. }
  assert (Hfull' : Py.dict_is_empty (RoleManager.roles self') = false).
  { rewrite Hload', dict_of_pairs_distinct by exact Hnd'.
    destruct rows'; [contradiction | reflexivity]. }
  assert (Hsame : Py.sorted (Py.dict_items (RoleManager.roles self')) =
                  Py.sorted (Py.dict_items (RoleManager.roles self))).
  { rewrite Hload, Hload'. apply listing_order_free; assumption. }
  assert (Hlen : Py.dict_len (RoleManager.roles self') = Py.dict_len (RoleManager.roles self)).
  { rewrite Hload, Hload', !dict_of_pairs_distinct by assumption.
    unfold Py.dict_len. symmetry. apply Permutation_length, HP. }
  destruct (listing_of_catalog rows) as [Hasc Hin]. rewrite <- Hload in Hasc, Hin.
  split; [exact Hasc|]. split; [exact Hin|].
  split.
  { unfold Api.list_all_roles. rewrite Hfull, length_map. reflexivity. }
  split.
  { unfold Api.list_all_roles. rewrite Hfull, Hfull', Hsame. reflexivity. }
  rewrite !list_all_roles_run, Hfull, Hfull'. cbn [fst snd].
  split; [reflexivity|]. split.
  - unfold printed_between. apply add_outputs_output.
  - rewrite Hsame. unfold table_lines, RoleManager.roles_footer. rewrite Hlen.
    reflexivity.
Qed.

Lemma list_all_roles_ascending_witness :
  Api.list_all_roles (Sample.manager_of Sample.rows_unsorted) =
    Py.VDict [("total", Py.VInt 2);
              ("roles", Py.VList [role_entry (1, "Viewer"); role_entry (2, "Admin")])] /\
  Api.list_all_roles (Sample.manager_of Sample.rows_sorted) =
    Api.list_all_roles (Sample.manager_of Sample.rows_unsorted).
Proof.
  assert (Hnd : NoDup (map fst Sample.rows_unsorted)).
  { simpl. constructor; [intros [H|[]]; discriminate|].
    constructor; [intros []|constructor]. }
  assert (HP : Permutation Sample.rows_unsorted Sample.rows_sorted)
    by apply perm_swap.
  assert (Hne : Sample.rows_unsorted <> []) by discriminate.
  pose proof (list_all_roles_ascending Sample.rows_unsorted Sample.rows_sorted
                (Sample.manager_of Sample.rows_unsorted)
                (Sample.manager_of Sample.rows_sorted)
                (Sample.world_of Sample.db_alice)
                eq_refl eq_refl Hnd HP Hne) as H.
  cbv zeta in H. destruct H as (_ & _ & Hret & Hsame & _).
  split; [exact Hret | exact Hsame].
Defined.

(** C8.  With an empty catalog, listing the roles does not raise and does
    not give an empty list of roles: the function of api.py returns the
    dictionary [{"error": "No se encontraron roles"}], which differs from
    the empty listing and from the result for every non-empty catalog;
    the method of the class prints the one line
    "No se encontraron roles en la DB" on stderr, returns normally, and
    prints nothing of the table. *)
Theorem list_all_roles_empty_catalog (self : RoleManager.t) (w : World) :
  Py.dict_is_empty (RoleManager.roles self) = true ->
  Api.list_all_roles self = Py.VDict [("error", Py.VStr "No se encontraron roles")] /\
  Api.list_all_roles self <>
    Py.VDict [("total", Py.VInt 0); ("roles", Py.VList [])] /\
  (forall other : RoleManager.t,
      Py.dict_is_empty (RoleManager.roles other) = false ->
      Api.list_all_roles other <> Api.list_all_roles self /\
      snd (RoleManager.list_all_roles other w) <> snd (RoleManager.list_all_roles self w)) /\
  RoleManager.list_all_roles self w =
    (Ret Py.VNone, add_output (Stderr, "No se encontraron roles en la DB") w).
Proof.
  intros Hempty.
  assert (Hret : Api.list_all_roles self =
                 Py.VDict [("error", Py.VStr "No se encontraron roles")]).
  { unfold Api.list_all_roles. now rewrite Hempty. }
  assert (Hrun : RoleManager.list_all_roles self w =
                 (Ret Py.VNone, add_output (Stderr, "No se encontraron roles en la DB") w)).
  { rewrite list_all_roles_run. now rewrite Hempty. }
  split; [exact Hret|]. split; [rewrite Hret; discriminate|].
  split; [|exact Hrun].
  intros other Hfull. split.
  - rewrite Hret. unfold Api.list_all_roles. rewrite Hfull. discriminate.
  - rewrite Hrun, list_all_roles_run, Hfull. cbn [snd].
    intros Heq. apply (f_equal output) in Heq.
    rewrite add_outputs_output in Heq. simpl in Heq.
    apply app_inv_head in Heq. discriminate.
Qed.

Lemma list_all_roles_empty_catalog_witness :
  Api.list_all_roles (Sample.manager_of []) =
    Py.VDict [("error", Py.VStr "No se encontraron roles")] /\
  RoleManager.list_all_roles (Sample.manager_of []) (Sample.world_of Sample.db_stale) =
    (Ret Py.VNone,
     add_output (Stderr, "No se encontraron roles en la DB") (Sample.world_of Sample.db_stale)).
Proof.
  pose proof (list_all_roles_empty_catalog (Sample.manager_of [])
                (Sample.world_of Sample.db_stale) eq_refl) as H.
  destruct H as (Hret & _ & _ & Hrun).
  split; [exact Hret | exact Hrun].
Defined.

(** ** GET /roles *)

(** C3, on the code.  With a manager in place, the view calls the method
    of the class, which prints the table and returns [None]: the response
    is [jsonify(None)] with status 200 for every catalog, never the
    dictionary with ["total"] and ["roles"] that the module-level function
    would give.  Without a manager the response is the error body with
    status 500. *)
Theorem get_all_roles_responds_none (rm : RoleManager.t) (w : World) :
  fst (Api.get_all_roles (Some rm) w) = Ret (Py.VNone, 200) /\
  fst (Api.get_all_roles (Some (Sample.manager_of Sample.rows_unsorted)) w)
    <> Ret (Api.list_all_roles (Sample.manager_of Sample.rows_unsorted), 200) /\
  Api.get_all_roles None w =
    (Ret (Py.VDict [("error", Py.VStr "El servidor no pudo conectarse a la base de datos")],
          500), w).
Proof.
  assert (Hnone : forall m, fst (Api.get_all_roles (Some m) w) = Ret (Py.VNone, 200)).
  { intros m. unfold Api.get_all_roles, try_except, bind.
    rewrite list_all_roles_run.
    destruct (Py.dict_is_empty (RoleManager.roles m)); reflexivity. }
  split; [apply Hnone|]. split; [|reflexivity].
  rewrite Hnone. vm_compute. discriminate.
Qed.

(** ** Granting a role *)

Section Granting.

Lemma after_resolve_quiet (w : World) (user : string) :
  next_fault w = None ->
  after_resolve w user = after_call (Db.Execute (Db.SelectUser user)) w.
Proof. intros H. unfold after_resolve. now rewrite H. Qed.

Lemma resolved_quiet (w : World) (user : string) :
  next_fault w = None ->
  resolved w user = fetchone (Db.select_user (session w) user).
Proof. intros H. unfold resolved. now rewrite H. Qed.

Lemma truthy_nonzero (uid : Z) : uid <> 0 -> Py.truthy (Some uid) = true.
Proof.
  intros H. simpl. destruct (Z.eqb_spec uid 0); [contradiction | reflexivity].
Qed.

(** An id the users query returns is the id of a row of the users table. *)
Lemma select_user_row (db : Db.Database) (user : string) (uid : Z) (others : list Z) :
  Db.select_user db user = uid :: others ->
  existsb (fun u => fst u =? uid) (Db.ue_usuario db) = true.
Proof.
  unfold Db.select_user. intros H.
  assert (Hin : In uid (map fst (filter (fun u => String.eqb (snd u) user) (Db.ue_usuario db))))
    by (rewrite H; now left).
  apply in_map_iff in Hin. destruct Hin as (u & Hu & Hin).
  apply filter_In in Hin. destruct Hin as [Hin _].
  apply existsb_exists. exists u. split; [exact Hin|]. now apply Z.eqb_eq.
Qed.

Lemma select_grant_count (db : Db.Database) (role_id uid : Z) :
  Db.select_grant db role_id uid = [] <-> Db.count_grants db role_id uid = 0%nat.
Proof.
  unfold Db.select_grant, Db.count_grants.
  destruct (filter _ _); simpl; split; intros H; congruence.
Qed.

(** [max_id] is the greatest id of the table, and [None] only on an empty
    table. *)
Lemma max_id_none (rows : list Db.grant) : Db.max_id rows = None <-> rows = [].
Proof.
  destruct rows as [|g rows]; simpl.
  - tauto.
  - destruct (Db.max_id rows); split; intros H; discriminate.
Qed.

Lemma max_id_greatest (rows : list Db.grant) (m : Z) :
  Db.max_id rows = Some m ->
  In m (map Db.g_id rows) /\ Forall (fun g => Db.g_id g <= m) rows.
Proof.
  revert m. induction rows as [|g rows IH]; intros m; simpl.
  - discriminate.
  - destruct (Db.max_id rows) as [m'|] eqn:E.
    + intros [= <-]. destruct (IH m' eq_refl) as [Hin Hall]. split.
      * destruct (Z.max_spec (Db.g_id g) m') as [[_ ->]|[_ ->]]; [now right | now left].
      * constructor; [lia|].
        eapply Forall_impl; [|exact Hall]. simpl. intros; lia.
    + intros [= <-]. apply max_id_none in E. subst rows. split.
      * now left.
      * constructor; [lia | constructor].
Qed.

Ltac quiet_side :=
  cbn [faults after_call tick add_call set_session set_committed add_output];
  repeat apply quiet_tl; assumption.

Ltac see_through :=
  cbn [session committed after_call tick add_call set_session set_committed add_output].

Variables (self : RoleManager.t) (user : string) (role_id uid : Z) (w : World).
Hypothesis Hconn : RoleManager.connection self = RoleManager.TheConnection.
Hypothesis Hquiet : quiet (faults w) = true.
Hypothesis Huser : fetchone (Db.select_user (session w) user) = Some uid.
Hypothesis Hnonzero : uid <> 0.
Hypothesis Hrole : RoleManager.role_exists self role_id = true.

Lemma grant_role_past_checks :
  RoleManager.grant_role self user role_id w =
  let w1 := after_call (Db.Execute (Db.SelectUser user)) w in
  let w2 := after_call (Db.Execute (Db.SelectGrant role_id uid)) w1 in
  match Db.select_grant (session w) role_id uid with
  | _ :: _ => (Ret true, already_world self user role_id uid w)
  | [] =>
      let g := new_grant (session w) role_id uid in
      if Db.fk_ok (session w) g
      then (Ret true, granted_world self user role_id uid w)
      else (Ret false, rejected_world user role_id uid w)
  end.
Proof.
  rewrite grant_role_run by exact Hconn. cbv zeta.
  rewrite (resolved_quiet w user (quiet_next w Hquiet)), Huser.
  rewrite (truthy_nonzero uid Hnonzero), Hrole. cbn [negb Py.int_of].
  rewrite (after_resolve_quiet w user (quiet_next w Hquiet)).
  rewrite quiet_next by quiet_side. see_through.
  destruct (Db.select_grant (session w) role_id uid) as [|x xs]; [|reflexivity].
  rewrite quiet_next by quiet_side.
  rewrite quiet_next by quiet_side.
  destruct (Db.fk_ok (session w) (new_grant (session w) role_id uid)).
  - rewrite quiet_next by quiet_side. reflexivity.
  - reflexivity.
Qed.

End Granting.

Section GrantOutcomes.

Lemma quiet_after_calls (w : World) (n : nat) :
  quiet (faults w) = true -> quiet (Nat.iter n (@tl _) (faults w)) = true.
Proof.
  intros H. induction n as [|n IH]; simpl; [exact H | apply quiet_tl, IH].
Qed.

Lemma msg_granted_not_already (user : string) (role_id : Z) (name : string) :
  RoleManager.msg_granted user role_id name <> RoleManager.msg_already user role_id name.
Proof. unfold RoleManager.msg_granted, RoleManager.msg_already. simpl. discriminate. Qed.

Lemma msg_fk_not_generic (role_id : Z) (e : Db.ora_error) :
  RoleManager.msg_fk role_id <> RoleManager.msg_oracle e /\
  RoleManager.msg_fk role_id <> RoleManager.msg_integrity e.
Proof.
  unfold RoleManager.msg_fk, RoleManager.msg_oracle, RoleManager.msg_integrity.
  simpl. split; discriminate.
Qed.

Lemma fk_ok_iff (db : Db.Database) (g : Db.grant) :
  Db.fk_ok db g =
  existsb (fun r => fst r =? Db.g_rol_id g) (Db.ue_roles db) &&
  existsb (fun u => fst u =? Db.g_usr_id g) (Db.ue_usuario db).
Proof. reflexivity. Qed.

Lemma count_grants_add (db : Db.Database) (g : Db.grant) (role_id uid : Z) :
  Db.g_rol_id g = role_id -> Db.g_usr_id g = uid ->
  Db.count_grants (Db.add_grant g db) role_id uid = S (Db.count_grants db role_id uid).
Proof.
  intros Hr Hu. unfold Db.count_grants, Db.add_grant. simpl.
  rewrite filter_app, length_app. simpl.
  unfold Db.grant_matches at 2. rewrite Hr, Hu, !Z.eqb_refl. simpl. lia.
Qed.

End GrantOutcomes.

(** C2, as the code has it.  When [grant_role] is called for a login name
    whose row has the non-zero id [uid], a role id of the catalog that the
    roles table still holds, no membership row for the pair, and a driver
    that raises nothing, it inserts exactly one row (id, role_id, uid)
    whose id is the greatest id of the membership table plus one, or 1 on
    an empty table, commits it, and then prints the success line and
    returns [True]. *)
Theorem grant_role_inserts_and_commits
    (self : RoleManager.t) (user : string) (role_id uid : Z) (others : list Z) (w : World) :
  RoleManager.connection self = RoleManager.TheConnection ->
  quiet (faults w) = true ->
  Db.select_user (session w) user = uid :: others ->
  uid <> 0 ->
  RoleManager.role_exists self role_id = true ->
  existsb (fun r => fst r =? role_id) (Db.ue_roles (session w)) = true ->
  Db.count_grants (session w) role_id uid = 0%nat ->
  let run := RoleManager.grant_role self user role_id w in
  let new_id :=
    match Db.max_id (Db.ue_usuario_roles (session w)) with
    | Some m => m + 1
    | None => 1
    end in
  fst run = Ret true /\
  Db.ue_usuario_roles (session (snd run)) =
    Db.ue_usuario_roles (session w) ++ [Db.mkGrant new_id role_id uid] /\
  Db.ue_roles (session (snd run)) = Db.ue_roles (session w) /\
  Db.ue_usuario (session (snd run)) = Db.ue_usuario (session w) /\
  committed (snd run) = session (snd run) /\
  calls_between w (snd run)
    [Db.Execute (Db.SelectUser user);
     Db.Execute (Db.SelectGrant role_id uid);
     Db.Execute Db.SelectMaxId;
     Db.Execute (Db.InsertGrant new_id role_id uid);
     Db.Commit] /\
  printed_between w (snd run)
    [(Stdout, RoleManager.msg_granted user role_id (RoleManager.role_name self role_id))].
Proof.
  intros Hc Hq Hu Hnz Hr Hfk Hfresh. cbv zeta.
  assert (Hone : fetchone (Db.select_user (session w) user) = Some uid)
    by (rewrite Hu; reflexivity).
  rewrite (grant_role_past_checks self user role_id uid w Hc Hq Hone Hnz Hr). cbv zeta.
  apply select_grant_count in Hfresh. rewrite Hfresh.
  rewrite fk_ok_iff. cbn [Db.g_rol_id Db.g_usr_id new_grant].
  rewrite Hfk, (select_user_row _ _ _ _ Hu). cbn [andb fst snd].
  assert (Hid : match Db.select_next_id (session w) with Some n => n | None => 1 end =
                match Db.max_id (Db.ue_usuario_roles (session w)) with
                | Some m => m + 1
                | None => 1
                end).
  { unfold Db.select_next_id. destruct (Db.max_id _); reflexivity. }
  unfold granted_world, before_insert, new_grant, calls_between, printed_between.
  cbn [session committed calls output after_call tick add_call set_session
       set_committed add_output Db.add_grant Db.ue_usuario_roles Db.ue_roles
       Db.ue_usuario Db.g_id].
  rewrite Hid, <- !app_assoc. repeat split.
Qed.

Lemma grant_role_inserts_and_commits_witness :
  let run := RoleManager.grant_role Sample.manager "alice" 5 (Sample.world_of Sample.db_alice) in
  fst run = Ret true /\
  Db.ue_usuario_roles (session (snd run)) = [Db.mkGrant 1 5 42] /\
  committed (snd run) = session (snd run).
Proof.
  pose proof (grant_role_inserts_and_commits Sample.manager "alice" 5 42 []
                (Sample.world_of Sample.db_alice)
                eq_refl eq_refl eq_refl ltac:(discriminate) eq_refl eq_refl eq_refl) as H.
  cbv zeta in H. destruct H as (Hret & Hrows & _ & _ & Hcommit & _).
  cbv zeta. split; [exact Hret|]. split; [exact Hrows | exact Hcommit].
Defined.

(** C2, as stated, at a catalog that has gone stale: alice resolves to
    42, role 5 is in the catalog, there is no membership row, and yet no
    row is inserted and the call returns [False], because the roles table
    no longer holds role 5. *)
Lemma grant_role_stale_catalog :
  let w := Sample.world_of Sample.db_stale in
  let run := RoleManager.grant_role Sample.manager "alice" 5 w in
  Db.select_user (session w) "alice" = [42] /\
  RoleManager.role_exists Sample.manager 5 = true /\
  Db.count_grants (session w) 5 42 = 0%nat /\
  fst run = Ret false /\
  Db.ue_usuario_roles (session (snd run)) = [] /\
  Db.ue_usuario_roles (committed (snd run)) = [] /\
  output (snd run) = [(Stderr, "Error: ID de Rol 5 no existente (violacion de FK)")].
Proof. cbv zeta. repeat split. Qed.

(** C1, as the code has it.  For a login name whose row has the non-zero
    id [uid], a role id of the catalog that the roles table still holds,
    no membership row for the pair yet, and a driver that raises nothing:
    the first [grant_role] returns [True] after the success line, the
    second returns [True] after the different "already has the role" line
    and changes nothing, and exactly one membership row for the pair
    exists afterwards, committed. *)
Theorem grant_role_twice
    (self : RoleManager.t) (user : string) (role_id uid : Z) (others : list Z) (w : World) :
  RoleManager.connection self = RoleManager.TheConnection ->
  quiet (faults w) = true ->
  Db.select_user (session w) user = uid :: others ->
  uid <> 0 ->
  RoleManager.role_exists self role_id = true ->
  existsb (fun r => fst r =? role_id) (Db.ue_roles (session w)) = true ->
  Db.count_grants (session w) role_id uid = 0%nat ->
  let first := RoleManager.grant_role self user role_id w in
  let second := RoleManager.grant_role self user role_id (snd first) in
  let name := RoleManager.role_name self role_id in
  fst first = Ret true /\
  printed_between w (snd first) [(Stdout, RoleManager.msg_granted user role_id name)] /\
  fst second = Ret true /\
  printed_between (snd first) (snd second)
    [(Stdout, RoleManager.msg_already user role_id name)] /\
  RoleManager.msg_granted user role_id name <> RoleManager.msg_already user role_id name /\
  same_data (snd first) (snd second) /\
  Db.count_grants (session (snd second)) role_id uid = 1%nat /\
  Db.count_grants (committed (snd second)) role_id uid = 1%nat.
Proof.
  intros Hc Hq Hu Hnz Hr Hfk Hfresh. cbv zeta.
  assert (Hone : fetchone (Db.select_user (session w) user) = Some uid)
    by (rewrite Hu; reflexivity).
  assert (Hfirst : RoleManager.grant_role self user role_id w =
                   (Ret true, granted_world self user role_id uid w)).
  { rewrite (grant_role_past_checks self user role_id uid w Hc Hq Hone Hnz Hr). cbv zeta.
    rewrite (proj2 (select_grant_count _ _ _) Hfresh).
    rewrite fk_ok_iff. cbn [Db.g_rol_id Db.g_usr_id new_grant].
    now rewrite Hfk, (select_user_row _ _ _ _ Hu). }
  rewrite Hfirst. cbn [fst snd].
  set (w1 := granted_world self user role_id uid w).
  assert (Hs1 : session w1 = Db.add_grant (new_grant (session w) role_id uid) (session w))
    by reflexivity.
  assert (Hc1 : committed w1 = session w1) by reflexivity.
  assert (Hq1 : quiet (faults w1) = true) by apply (quiet_after_calls w 5 Hq).
  assert (Hone1 : fetchone (Db.select_user (session w1) user) = Some uid)
    by (rewrite Hs1; exact Hone).
  assert (Hcount : Db.count_grants (session w1) role_id uid = 1%nat).
  { rewrite Hs1, count_grants_add by reflexivity. now rewrite Hfresh. }
  assert (Hsecond : RoleManager.grant_role self user role_id w1 =
                    (Ret true, already_world self user role_id uid w1)).
  { rewrite (grant_role_past_checks self user role_id uid w1 Hc Hq1 Hone1 Hnz Hr). cbv zeta.
    destruct (Db.select_grant (session w1) role_id uid) eqn:E; [|reflexivity].
    apply select_grant_count in E. rewrite E in Hcount. discriminate. }
  rewrite Hsecond. cbn [fst snd].
  split; [reflexivity|]. split; [reflexivity|]. split; [reflexivity|].
  split; [reflexivity|]. split; [apply msg_granted_not_already|].
  split; [split; reflexivity|].
  change (session (already_world self user role_id uid w1)) with (session w1).
  change (committed (already_world self user role_id uid w1)) with (committed w1).
  rewrite Hc1. split; exact Hcount.
Qed.

Lemma grant_role_twice_witness :
  let first := RoleManager.grant_role Sample.manager "alice" 5 (Sample.world_of Sample.db_alice) in
  let second := RoleManager.grant_role Sample.manager "alice" 5 (snd first) in
  fst first = Ret true /\ fst second = Ret true /\
  Db.count_grants (session (snd second)) 5 42 = 1%nat.
Proof.
  pose proof (grant_role_twice Sample.manager "alice" 5 42 []
                (Sample.world_of Sample.db_alice)
                eq_refl eq_refl eq_refl ltac:(discriminate) eq_refl eq_refl eq_refl) as H.
  cbv zeta in H. destruct H as (H1 & _ & H2 & _ & _ & _ & H3 & _).
  cbv zeta. split; [exact H1|]. split; [exact H2 | exact H3].
Defined.

(** C1, as stated, at a pair that is already granted: alice has an
    internal id and role 5 is in the catalog, but the first of the two
    calls already answers "already has the role", not the success line. *)
Lemma grant_role_twice_prior_grant :
  let w := Sample.world_of Sample.db_granted in
  let first := RoleManager.grant_role Sample.manager "alice" 5 w in
  Db.select_user (session w) "alice" = [42] /\
  RoleManager.role_exists Sample.manager 5 = true /\
  fst first = Ret true /\
  output (snd first) = [(Stdout, "Info: Usuario 'alice' ya tiene el rol 5 (Editor)")] /\
  ~ printed_between w (snd first)
      [(Stdout, RoleManager.msg_granted "alice" 5 (RoleManager.role_name Sample.manager 5))].
Proof.
  cbv zeta. repeat split.
  intros H. vm_compute in H. discriminate.
Qed.

(** ** An insert the storage refuses *)

(** C4.  When the call gets as far as the insert (the login name has a
    non-zero id, the role id is in the catalog, there is no membership row
    yet, the driver raises nothing of its own) and the roles table does
    not hold the role id, the foreign key refuses the row: [grant_role]
    prints the line about the missing role, which no generic Oracle error
    line equals, rolls back, and returns [False]; the committed data are
    as before, and so are the data of a session that had nothing
    uncommitted, the membership table row for row. *)
Theorem grant_role_foreign_key_refusal
    (self : RoleManager.t) (user : string) (role_id uid : Z) (others : list Z) (w : World) :
  RoleManager.connection self = RoleManager.TheConnection ->
  quiet (faults w) = true ->
  session w = committed w ->
  Db.select_user (session w) user = uid :: others ->
  uid <> 0 ->
  RoleManager.role_exists self role_id = true ->
  Db.count_grants (session w) role_id uid = 0%nat ->
  existsb (fun r => fst r =? role_id) (Db.ue_roles (session w)) = false ->
  let run := RoleManager.grant_role self user role_id w in
  fst run = Ret false /\
  printed_between w (snd run) [(Stderr, RoleManager.msg_fk role_id)] /\
  (forall e : Db.ora_error,
      RoleManager.msg_fk role_id <> RoleManager.msg_oracle e /\
      RoleManager.msg_fk role_id <> RoleManager.msg_integrity e) /\
  (exists new_id,
      calls_between w (snd run)
        [Db.Execute (Db.SelectUser user);
         Db.Execute (Db.SelectGrant role_id uid);
         Db.Execute Db.SelectMaxId;
         Db.Execute (Db.InsertGrant new_id role_id uid);
         Db.Rollback]) /\
  same_data w (snd run) /\
  List.length (Db.ue_usuario_roles (session (snd run))) =
    List.length (Db.ue_usuario_roles (session w)).
Proof.
  intros Hc Hq Hclean Hu Hnz Hr Hfresh Hgone. cbv zeta.
  assert (Hone : fetchone (Db.select_user (session w) user) = Some uid)
    by (rewrite Hu; reflexivity).
  rewrite (grant_role_past_checks self user role_id uid w Hc Hq Hone Hnz Hr). cbv zeta.
  rewrite (proj2 (select_grant_count _ _ _) Hfresh).
  rewrite fk_ok_iff. cbn [Db.g_rol_id Db.g_usr_id new_grant].
  rewrite Hgone. cbn [andb fst snd].
  assert (Hs : session (rejected_world user role_id uid w) = session w)
    by (rewrite Hclean; reflexivity).
  split; [reflexivity|]. split; [reflexivity|].
  split; [intros e; apply msg_fk_not_generic|].
  split.
  { eexists. unfold calls_between, rejected_world, before_insert.
    cbn [calls session committed after_call tick add_call set_session add_output].
    rewrite <- !app_assoc. reflexivity. }
  split; [split; [reflexivity | exact Hs]|].
  now rewrite Hs.
Qed.

Lemma grant_role_foreign_key_refusal_witness :
  let run := RoleManager.grant_role Sample.manager "alice" 5 (Sample.world_of Sample.db_stale) in
  fst run = Ret false /\
  printed_between (Sample.world_of Sample.db_stale) (snd run)
    [(Stderr, RoleManager.msg_fk 5)] /\
  same_data (Sample.world_of Sample.db_stale) (snd run).
Proof.
  pose proof (grant_role_foreign_key_refusal Sample.manager "alice" 5 42 []
                (Sample.world_of Sample.db_stale)
                eq_refl eq_refl eq_refl eq_refl ltac:(discriminate) eq_refl eq_refl eq_refl)
    as H.
  cbv zeta in H. destruct H as (H1 & H2 & _ & _ & H3 & _).
  cbv zeta. split; [exact H1|]. split; [exact H2 | exact H3].
Defined.

(** ** What holds of every call *)

Section EveryCall.

Variables (self : RoleManager.t) (user : string) (role_id : Z) (w : World).
Hypothesis Hconn : RoleManager.connection self = RoleManager.TheConnection.

(** [check_user_role] only reads: whatever the data and the driver do, it
    returns a boolean, leaves the data alone, and makes no call that could
    change them. *)
Lemma check_user_role_reads_only :
  let run := RoleManager.check_user_role self user role_id w in
  (exists b, fst run = Ret b) /\
  same_data w (snd run) /\
  exists cs, calls_between w (snd run) cs /\
             forallb (fun c => negb (Db.mutating c)) cs = true.
Proof.
  cbv zeta. rewrite check_user_role_run by exact Hconn. cbv zeta.
  unfold same_data, calls_between.
  destruct (negb (Py.truthy (resolved w user)));
    [|destruct (negb (RoleManager.role_exists self role_id));
      [|destruct (next_fault (after_resolve w user));
        [|destruct (Db.select_grant _ _ _)]]];
    cbn [fst snd session committed calls after_call tick add_call add_output];
    rewrite after_resolve_committed, after_resolve_session, after_resolve_calls;
    rewrite <- ?app_assoc;
    (split; [eexists; reflexivity|]);
    (split; [split; reflexivity|]);
    eexists; (split; [reflexivity|]); reflexivity.
Qed.

Lemma grant_failure_settles (e : Db.ora_error) (w0 : World) :
  fst (grant_failure role_id e w0) = Ret false /\
  session (snd (grant_failure role_id e w0)) = committed (snd (grant_failure role_id e w0)) /\
  committed (snd (grant_failure role_id e w0)) = committed w0.
Proof. repeat split. Qed.


End EveryCall.

(** ** The catalog as a snapshot of the roles table *)

Section DictLookup.

Context {K V : Type}.
Variable keq : K -> K -> bool.
Hypothesis keq_spec : forall a b : K, reflect (a = b) (keq a b).

Lemma dict_get_set_same (d : Py.dict) (k : K) (v : V) :
  Py.dict_get keq (Py.dict_set keq d k v) k = Some v.
Proof.
  induction d as [|[k' v'] d IH]; simpl.
  - destruct (keq_spec k k); [reflexivity | contradiction].
  - destruct (keq_spec k' k) as [E|Hne]; simpl.
    + destruct (keq_spec k' k); [reflexivity | contradiction].
    + destruct (keq_spec k' k); [contradiction | exact IH].
Qed.

Lemma dict_get_set_other (d : Py.dict) (k k0 : K) (v : V) :
  k0 <> k -> Py.dict_get keq (Py.dict_set keq d k v) k0 = Py.dict_get keq d k0.
Proof.
  intros Hne. induction d as [|[k' v'] d IH]; simpl.
  - destruct (keq_spec k k0); [congruence | reflexivity].
  - destruct (keq_spec k' k) as [E|Hne']; simpl.
    + destruct (keq_spec k' k0); [congruence | reflexivity].
    + destruct (keq_spec k' k0); [reflexivity | exact IH].
Qed.

Lemma dict_fold_get_absent (rows : list (K * V)) (d : Py.dict) (k : K) :
  ~ In k (map fst rows) ->
  Py.dict_get keq (fold_left (fun d kv => Py.dict_set keq d (fst kv) (snd kv)) rows d) k =
  Py.dict_get keq d k.
Proof.
  revert d. induction rows as [|[k' v'] rows IH]; intros d Hni; simpl.
  - reflexivity.
  - rewrite IH by (intros Hin; apply Hni; now right).
    apply dict_get_set_other. intros ->. apply Hni. now left.
Qed.

(** Of several pairs with one key, the last one decides the value. *)
Lemma dict_of_pairs_last (before after : list (K * V)) (k : K) (v : V) :
  ~ In k (map fst after) ->
  Py.dict_get keq (Py.dict_of_pairs keq (before ++ (k, v) :: after)) k = Some v.
Proof.
  intros Hni. unfold Py.dict_of_pairs. rewrite fold_left_app. simpl.
  rewrite dict_fold_get_absent by exact Hni.
  apply dict_get_set_same.
Qed.

Lemma dict_of_pairs_absent (rows : list (K * V)) (k : K) :
  ~ In k (map fst rows) -> Py.dict_get keq (Py.dict_of_pairs keq rows) k = None.
Proof.
  intros Hni. unfold Py.dict_of_pairs. now rewrite dict_fold_get_absent.
Qed.

(** Splitting a list at the last pair with a given key. *)
Lemma last_with_key (rows : list (K * V)) (k : K) :
  In k (map fst rows) ->
  exists before v after, rows = before ++ (k, v) :: after /\ ~ In k (map fst after).
Proof.
  induction rows as [|[k' v'] rows IH]; intros Hin.
  - destruct Hin.
  - assert (Hdec : In k (map fst rows) \/ ~ In k (map fst rows)).
    { clear IH Hin. induction rows as [|[k1 v1] rows IH]; simpl.
      - right. tauto.
      - destruct (keq_spec k1 k); [now left; left|].
        destruct IH; [left; now right | right; tauto]. }
    destruct Hdec as [Hlater|Hnot].
    + destruct (IH Hlater) as (b & v & a & -> & Hni).
      exists ((k', v') :: b), v, a. split; [reflexivity | exact Hni].
    + destruct Hin as [E|Hin]; [|contradiction]. simpl in E. subst k'.
      exists [], v', rows. split; [reflexivity | exact Hnot].
Qed.

Lemma dict_of_pairs_contains (rows : list (K * V)) (k : K) :
  Py.dict_contains keq (Py.dict_of_pairs keq rows) k = true <-> In k (map fst rows).
Proof.
  unfold Py.dict_contains. split.
  - intros H.
    assert (Hdec : In k (map fst rows) \/ ~ In k (map fst rows)).
    { clear H. induction rows as [|[k1 v1] rows IH]; simpl.
      - right. tauto.
      - destruct (keq_spec k1 k); [now left; left|].
        destruct IH; [left; now right | right; tauto]. }
    destruct Hdec as [Hin|Hni]; [exact Hin|].
    rewrite dict_of_pairs_absent in H by exact Hni. discriminate.
  - intros Hin. destruct (last_with_key rows k Hin) as (b & v & a & -> & Hni).
    now rewrite dict_of_pairs_last.
Qed.

End DictLookup.

(** X1.  The constructor reads the roles table once, changes nothing, and
    keeps what it read: [role_exists] is then true of exactly the ids the
    table held at that moment, the name kept for an id is the one of the
    last row with that id, and an id outside the table has the empty name
    in messages. *)
Theorem init_snapshot_of_roles_table (w : World) :
  next_fault w = None ->
  exists self : RoleManager.t,
    RoleManager.init RoleManager.TheConnection w =
      (Ret self, after_call (Db.Execute Db.SelectRoles) w) /\
    (forall role_id,
        RoleManager.role_exists self role_id = true <->
        In role_id (map fst (Db.ue_roles (session w)))) /\
    (forall before after role_id name,
        Db.ue_roles (session w) = before ++ (role_id, name) :: after ->
        ~ In role_id (map fst after) ->
        RoleManager.role_name self role_id = name) /\
    (forall role_id,
        ~ In role_id (map fst (Db.ue_roles (session w))) ->
        RoleManager.role_name self role_id = EmptyString).
Proof.
  intros Hnf. rewrite init_run, Hnf. cbv zeta.
  eexists. split; [reflexivity|].
  unfold RoleManager.role_exists, RoleManager.role_name, Py.dict_get_default.
  cbn [RoleManager.roles].
  split; [|split].
  - intros role_id. apply (dict_of_pairs_contains Z.eqb Z.eqb_spec).
  - intros before after role_id name Hrows Hni.
    now rewrite Hrows, (dict_of_pairs_last Z.eqb Z.eqb_spec).
  - intros role_id Hni.
    now rewrite (dict_of_pairs_absent Z.eqb Z.eqb_spec).
Qed.

Lemma init_snapshot_of_roles_table_witness :
  exists self : RoleManager.t,
    RoleManager.init RoleManager.TheConnection (Sample.world_of Sample.db_alice) =
      (Ret self, after_call (Db.Execute Db.SelectRoles) (Sample.world_of Sample.db_alice)) /\
    RoleManager.role_exists self 5 = true.
Proof.
  destruct (init_snapshot_of_roles_table (Sample.world_of Sample.db_alice) eq_refl)
    as (self & Hrun & Hex & _).
  exists self. split; [exact Hrun|].
  apply Hex. simpl. now left.
Defined.



Section DictMembers.

Context {K V : Type}.
Variable keq : K -> K -> bool.
Hypothesis keq_spec : forall a b : K, reflect (a = b) (keq a b).

(** A value found under a key was paired with that key in the input. *)
Lemma dict_of_pairs_get_in (rows : list (K * V)) (k : K) (v : V) :
  Py.dict_get keq (Py.dict_of_pairs keq rows) k = Some v -> In (k, v) rows.
Proof.
  intros Hget.
  assert (Hin : In k (map fst rows)).
  { apply (dict_of_pairs_contains keq keq_spec). unfold Py.dict_contains.
    now rewrite Hget. }
  destruct (last_with_key keq keq_spec rows k Hin) as (b & v' & a & -> & Hni).
  rewrite (dict_of_pairs_last keq keq_spec) in Hget by exact Hni.
  injection Hget as <-. apply in_or_app. right. now left.
Qed.

End DictMembers.

(** X3.  The name index the constructor builds beside the catalog sends a
    name to an id that carries that name in the catalog; when several ids
    share a name, the id that comes last in the catalog is the one kept;
    and the index knows exactly the names of the catalog. *)
Theorem index_by_name_inverts_catalog (rows : list (Z * string)) :
  let roles := Py.dict_of_pairs Z.eqb rows in
  let index := RoleManager.index_by_name roles in
  (forall name id,
      Py.dict_get String.eqb index name = Some id ->
      Py.dict_get Z.eqb roles id = Some name) /\
  (forall before after id name,
      roles = before ++ (id, name) :: after ->
      ~ In name (map snd after) ->
      Py.dict_get String.eqb index name = Some id) /\
  (forall name,
      Py.dict_contains String.eqb index name = true <-> In name (map snd roles)).
Proof.
  cbv zeta. unfold RoleManager.index_by_name, Py.dict_items.
  set (roles := Py.dict_of_pairs Z.eqb rows).
  assert (Hkeys : forall l : list (Z * string),
             map fst (map (fun kv => (snd kv, fst kv)) l) = map snd l).
  { intros l. rewrite map_map. reflexivity. }
  split; [|split].
  - intros name id Hget.
    apply (dict_of_pairs_get_in String.eqb String.eqb_spec) in Hget.
    apply in_map_iff in Hget. destruct Hget as ([id' name'] & [= <- <-] & Hin).
    apply dict_get_in; [apply dict_of_pairs_nodup | exact Hin].
  - intros before after id name Hroles Hni.
    rewrite Hroles, map_app. simpl.
    apply (dict_of_pairs_last String.eqb String.eqb_spec).
    now rewrite Hkeys.
  - intros name.
    rewrite (dict_of_pairs_contains String.eqb String.eqb_spec), Hkeys.
    reflexivity.
Qed.

(** ** Membership checks *)

Section Membership.

Lemma select_grant_rows (db : Db.Database) (role_id uid : Z) :
  Db.select_grant db role_id uid <> [] <->
  exists g, In g (Db.ue_usuario_roles db) /\ Db.g_rol_id g = role_id /\ Db.g_usr_id g = uid.
Proof.
  unfold Db.select_grant. split.
  - destruct (filter _ _) as [|g gs] eqn:E; [intros H; now contradiction H|].
    intros _. assert (Hin : In g (filter (Db.grant_matches role_id uid) (Db.ue_usuario_roles db)))
      by (rewrite E; now left).
    apply filter_In in Hin. destruct Hin as [Hin Hm].
    unfold Db.grant_matches in Hm. apply andb_true_iff in Hm.
    destruct Hm as [H1 H2]. apply Z.eqb_eq in H1, H2.
    exists g. repeat split; assumption.
  - intros (g & Hin & H1 & H2).
    assert (Hf : In g (filter (Db.grant_matches role_id uid) (Db.ue_usuario_roles db))).
    { apply filter_In. split; [exact Hin|].
      unfold Db.grant_matches. now rewrite H1, H2, !Z.eqb_refl. }
    destruct (filter _ _); [destruct Hf | discriminate].
Qed.

End Membership.

(** X4.  For a login name whose row has a non-zero id, a role id of the
    catalog and a driver that raises nothing, [check_user_role] returns
    [True] exactly when the membership table holds a row for that role
    and that user; it prints the matching line, and it reads the users
    table and the membership table without changing anything. *)
Theorem check_user_role_answers
    (self : RoleManager.t) (user : string) (role_id uid : Z) (others : list Z) (w : World) :
  RoleManager.connection self = RoleManager.TheConnection ->
  quiet (faults w) = true ->
  Db.select_user (session w) user = uid :: others ->
  uid <> 0 ->
  RoleManager.role_exists self role_id = true ->
  let run := RoleManager.check_user_role self user role_id w in
  let name := RoleManager.role_name self role_id in
  exists b : bool,
    fst run = Ret b /\
    (b = true <->
     exists g, In g (Db.ue_usuario_roles (session w)) /\
               Db.g_rol_id g = role_id /\ Db.g_usr_id g = uid) /\
    printed_between w (snd run)
      [(Stdout, if b then RoleManager.msg_has_role user role_id name
                else RoleManager.msg_lacks_role user role_id name)] /\
    calls_between w (snd run)
      [Db.Execute (Db.SelectUser user); Db.Execute (Db.SelectGrant role_id uid)] /\
    same_data w (snd run).
Proof.
  intros Hc Hq Hu Hnz Hr. cbv zeta.
  rewrite check_user_role_run by exact Hc. cbv zeta.
  rewrite (resolved_quiet w user (quiet_next w Hq)), Hu. cbn [fetchone hd_error].
  rewrite (truthy_nonzero uid Hnz), Hr. cbn [negb Py.int_of].
  rewrite (after_resolve_quiet w user (quiet_next w Hq)).
  rewrite quiet_next
    by (cbn [faults after_call tick add_call]; apply quiet_tl, Hq).
  cbn [session after_call tick add_call].
  pose proof (select_grant_rows (session w) role_id uid) as Hrows.
  unfold calls_between, printed_between, same_data.
  destruct (Db.select_grant (session w) role_id uid) as [|x xs].
  - exists false. cbn [fst snd session committed calls output after_call tick add_call add_output].
    rewrite <- app_assoc.
    repeat split; try discriminate.
    intros Hex. apply Hrows in Hex. now contradiction Hex.
  - exists true. cbn [fst snd session committed calls output after_call tick add_call add_output].
    rewrite <- app_assoc.
    repeat split. intros _. apply Hrows. discriminate.
Qed.

Lemma check_user_role_answers_witness :
  fst (RoleManager.check_user_role Sample.manager "alice" 5 (Sample.world_of Sample.db_granted))
    = Ret true /\
  fst (RoleManager.check_user_role Sample.manager "alice" 5 (Sample.world_of Sample.db_alice))
    = Ret false.
Proof.
  split.
  - destruct (check_user_role_answers Sample.manager "alice" 5 42 []
                (Sample.world_of Sample.db_granted)
                eq_refl eq_refl eq_refl ltac:(discriminate) eq_refl)
      as (b & Hret & Hiff & _).
    rewrite Hret. f_equal. apply Hiff.
    exists (Db.mkGrant 1 5 42). repeat split. now left.
  - destruct (check_user_role_answers Sample.manager "alice" 5 42 []
                (Sample.world_of Sample.db_alice)
                eq_refl eq_refl eq_refl ltac:(discriminate) eq_refl)
      as (b & Hret & Hiff & _).
    rewrite Hret. f_equal. destruct b; [|reflexivity].
    destruct (proj1 Hiff eq_refl) as (g & [] & _).
Defined.

(** ** What a grant can do to the data *)

Section GrantCases.

Lemma truthy_some (v : option Z) :
  Py.truthy v = true -> exists uid, v = Some uid /\ uid <> 0.
Proof.
  destruct v as [uid|]; simpl; [|discriminate].
  intros H. exists uid. split; [reflexivity|].
  intros ->. discriminate.
Qed.

Lemma resolved_some (w : World) (user : string) (uid : Z) :
  resolved w user = Some uid ->
  next_fault w = None /\ fetchone (Db.select_user (session w) user) = Some uid.
Proof.
  unfold resolved. destruct (next_fault w); [discriminate|]. now split.
Qed.

Variables (self : RoleManager.t) (user : string) (role_id : Z) (w : World).
Hypothesis Hconn : RoleManager.connection self = RoleManager.TheConnection.

Lemma grant_role_cases :
  let run := RoleManager.grant_role self user role_id w in
  (fst run = Ret false /\ same_data w (snd run)) \/
  (fst run = Ret true /\ same_data w (snd run) /\
   exists uid, fetchone (Db.select_user (session w) user) = Some uid /\
               Db.count_grants (session w) role_id uid <> 0%nat) \/
  (fst run = Ret false /\
   committed (snd run) = committed w /\ session (snd run) = committed w) \/
  (fst run = Ret true /\
   exists uid,
     uid <> 0 /\
     fetchone (Db.select_user (session w) user) = Some uid /\
     RoleManager.role_exists self role_id = true /\
     Db.count_grants (session w) role_id uid = 0%nat /\
     Db.fk_ok (session w) (new_grant (session w) role_id uid) = true /\
     session (snd run) = Db.add_grant (new_grant (session w) role_id uid) (session w) /\
     committed (snd run) = Db.add_grant (new_grant (session w) role_id uid) (session w)).
Proof.
  cbv zeta. rewrite grant_role_run by exact Hconn. cbv zeta.
  unfold same_data.
  destruct (Py.truthy (resolved w user)) eqn:Ht; cbn [negb].
  2:{ left. cbn [fst snd session committed add_output].
      now rewrite after_resolve_committed, after_resolve_session. }
  destruct (RoleManager.role_exists self role_id) eqn:Hr; cbn [negb].
  2:{ left. cbn [fst snd session committed add_output].
      now rewrite after_resolve_committed, after_resolve_session. }
  destruct (truthy_some _ Ht) as (uid & Hv & Hnz).
  destruct (resolved_some w user uid Hv) as [_ Hone].
  rewrite Hv. cbn [Py.int_of].
  assert (Hrollback : forall e w0, committed w0 = committed w ->
            fst (grant_failure role_id e w0) = Ret false /\
            committed (snd (grant_failure role_id e w0)) = committed w /\
            session (snd (grant_failure role_id e w0)) = committed w).
  { intros e w0 H0. repeat split; exact H0. }
  destruct (next_fault (after_resolve w user)).
  { right. right. left. apply Hrollback.
    cbn [committed after_call tick add_call]. apply after_resolve_committed. }
  cbn [session after_call tick add_call]. rewrite after_resolve_session.
  destruct (Db.select_grant (session w) role_id uid) as [|x xs] eqn:Hg.
  2:{ right. left. cbn [fst snd session committed after_call tick add_call add_output].
      rewrite after_resolve_committed, after_resolve_session.
      split; [reflexivity|]. split; [now split|].
      exists uid. split; [exact Hone|].
      intros H0. apply select_grant_count in H0. congruence. }
  apply select_grant_count in Hg.
  destruct (next_fault _).
  { right. right. left. apply Hrollback.
    cbn [committed after_call tick add_call]. apply after_resolve_committed. }
  destruct (next_fault _).
  { right. right. left. apply Hrollback.
    cbn [committed after_call tick add_call]. apply after_resolve_committed. }
  destruct (Db.fk_ok (session w) (new_grant (session w) role_id uid)) eqn:Hfk.
  2:{ right. right. left. apply Hrollback.
      cbn [committed after_call tick add_call]. apply after_resolve_committed. }
  destruct (next_fault _).
  { right. right. left. apply Hrollback.
    cbn [committed after_call tick add_call set_session]. apply after_resolve_committed. }
  right. right. right. split; [reflexivity|].
  exists uid. repeat split; assumption.
Qed.

End GrantCases.





(** X7.  In a session with nothing uncommitted, [grant_role] only ever
    appends: the roles table and the users table are never written, and
    the membership table afterwards is the table before, either unchanged
    or followed by one new row for the requested role, in which case the
    call returned [True] and the row is committed. *)
Theorem grant_role_only_appends
    (self : RoleManager.t) (user : string) (role_id : Z) (w : World) :
  RoleManager.connection self = RoleManager.TheConnection ->
  session w = committed w ->
  let run := RoleManager.grant_role self user role_id w in
  Db.ue_roles (session (snd run)) = Db.ue_roles (session w) /\
  Db.ue_usuario (session (snd run)) = Db.ue_usuario (session w) /\
  committed (snd run) = session (snd run) /\
  (Db.ue_usuario_roles (session (snd run)) = Db.ue_usuario_roles (session w) \/
   exists g,
     Db.ue_usuario_roles (session (snd run)) = Db.ue_usuario_roles (session w) ++ [g] /\
     Db.g_rol_id g = role_id /\
     Db.select_user (session w) user <> [] /\
     hd_error (Db.select_user (session w) user) = Some (Db.g_usr_id g) /\
     fst run = Ret true).
Proof.
  intros Hc Hclean. cbv zeta.
  destruct (grant_role_cases self user role_id w Hc)
    as [(Hret & Hc1 & Hs1) | [(Hret & (Hc1 & Hs1) & _) | [(Hret & Hc1 & Hs1) | (Hret & uid & H)]]].
  - rewrite Hs1, Hc1. repeat split; auto.
  - rewrite Hs1, Hc1. repeat split; auto.
  - rewrite Hs1, Hc1, <- Hclean. repeat split; auto.
  - destruct H as (_ & Hone & _ & _ & _ & Hs1 & Hc1).
    rewrite Hs1, Hc1. repeat split.
    right. exists (new_grant (session w) role_id uid).
    unfold fetchone in Hone.
    repeat split; try assumption.
    intros E. rewrite E in Hone. discriminate.
Qed.

Lemma grant_role_only_appends_witness :
  let run := RoleManager.grant_role Sample.manager "alice" 5 (Sample.world_of Sample.db_alice) in
  Db.ue_roles (session (snd run)) = [(5, "Editor")] /\
  committed (snd run) = session (snd run).
Proof.
  destruct (grant_role_only_appends Sample.manager "alice" 5
              (Sample.world_of Sample.db_alice) eq_refl eq_refl)
    as (Hroles & _ & Hcommit & _).
  cbv zeta. split; [exact Hroles | exact Hcommit].
Defined.

Section TableInvariants.

Lemma new_grant_id_fresh (db : Db.Database) (role_id uid : Z) :
  ~ In (Db.g_id (new_grant db role_id uid)) (map Db.g_id (Db.ue_usuario_roles db)).
Proof.
  unfold new_grant, Db.select_next_id. cbn [Db.g_id].
  destruct (Db.max_id (Db.ue_usuario_roles db)) as [m|] eqn:E.
  - destruct (max_id_greatest _ _ E) as [_ Hall].
    intros Hin. apply in_map_iff in Hin. destruct Hin as (g & Hg & Hin).
    rewrite Forall_forall in Hall. specialize (Hall g Hin). lia.
  - apply max_id_none in E. rewrite E. intros [].
Qed.

Lemma add_grant_ids_unique (db : Db.Database) (role_id uid : Z) :
  NoDup (map Db.g_id (Db.ue_usuario_roles db)) ->
  NoDup (map Db.g_id (Db.ue_usuario_roles (Db.add_grant (new_grant db role_id uid) db))).
Proof.
  intros Hnd. unfold Db.add_grant. cbn [Db.ue_usuario_roles].
  rewrite map_app. simpl.
  apply NoDup_app; [exact Hnd | repeat constructor; intros [] |].
  intros x Hx [<-|[]]. now apply (new_grant_id_fresh db role_id uid).
Qed.

Lemma count_grants_add_any (db : Db.Database) (g : Db.grant) (role_id uid : Z) :
  Db.count_grants (Db.add_grant g db) role_id uid =
  (Db.count_grants db role_id uid + if Db.grant_matches role_id uid g then 1 else 0)%nat.
Proof.
  unfold Db.count_grants, Db.add_grant. simpl.
  rewrite filter_app, length_app. simpl.
  destruct (Db.grant_matches role_id uid g); reflexivity.
Qed.

End TableInvariants.

(** X8.  [grant_role] keeps the surrogate ids of the membership table
    pairwise different: the id it gives a new row, [MAX(ID) + 1] or 1, is
    larger than every id in the table, so ids that were unique before a
    call, in the session and in the committed data, are unique after
    it. *)
Theorem grant_role_keeps_ids_unique
    (self : RoleManager.t) (user : string) (role_id : Z) (w : World) :
  RoleManager.connection self = RoleManager.TheConnection ->
  NoDup (map Db.g_id (Db.ue_usuario_roles (session w))) ->
  NoDup (map Db.g_id (Db.ue_usuario_roles (committed w))) ->
  let run := RoleManager.grant_role self user role_id w in
  NoDup (map Db.g_id (Db.ue_usuario_roles (session (snd run)))) /\
  NoDup (map Db.g_id (Db.ue_usuario_roles (committed (snd run)))).
Proof.
  intros Hc Hs Hcm. cbv zeta.
  destruct (grant_role_cases self user role_id w Hc)
    as [(_ & Hc1 & Hs1) | [(_ & (Hc1 & Hs1) & _) | [(_ & Hc1 & Hs1) | (_ & uid & H)]]].
  - rewrite Hs1, Hc1. now split.
  - rewrite Hs1, Hc1. now split.
  - rewrite Hs1, Hc1. now split.
  - destruct H as (_ & _ & _ & _ & _ & Hs1 & Hc1).
    rewrite Hs1, Hc1. split; apply add_grant_ids_unique, Hs.
Qed.

Lemma grant_role_keeps_ids_unique_witness :
  NoDup (map Db.g_id
           (Db.ue_usuario_roles
              (session (snd (RoleManager.grant_role Sample.manager "alice" 5
                               (Sample.world_of Sample.db_alice)))))).
Proof.
  refine (proj1 (grant_role_keeps_ids_unique Sample.manager "alice" 5
                   (Sample.world_of Sample.db_alice) _ _ _));
    [reflexivity | simpl; constructor | simpl; constructor].
Defined.

(** X9.  [grant_role] keeps the membership table free of duplicates: if
    no (role, user) pair has more than one row, in the session and in the
    committed data, then none has after the call, whatever the arguments
    and whatever the driver does.  The row it inserts is for a pair that
    had none. *)
Theorem grant_role_keeps_pairs_unique
    (self : RoleManager.t) (user : string) (role_id : Z) (w : World) :
  RoleManager.connection self = RoleManager.TheConnection ->
  (forall r u, (Db.count_grants (session w) r u <= 1)%nat) ->
  (forall r u, (Db.count_grants (committed w) r u <= 1)%nat) ->
  let run := RoleManager.grant_role self user role_id w in
  (forall r u, (Db.count_grants (session (snd run)) r u <= 1)%nat) /\
  (forall r u, (Db.count_grants (committed (snd run)) r u <= 1)%nat).
Proof.
  intros Hc Hs Hcm. cbv zeta.
  destruct (grant_role_cases self user role_id w Hc)
    as [(_ & Hc1 & Hs1) | [(_ & (Hc1 & Hs1) & _) | [(_ & Hc1 & Hs1) | (_ & uid & H)]]].
  - rewrite Hs1, Hc1. now split.
  - rewrite Hs1, Hc1. now split.
  - rewrite Hs1, Hc1. now split.
  - destruct H as (_ & _ & _ & Hfresh & _ & Hs1 & Hc1).
    rewrite Hs1, Hc1.
    assert (Hadd : forall r u,
               (Db.count_grants
                  (Db.add_grant (new_grant (session w) role_id uid) (session w)) r u <= 1)%nat).
    { intros r u. rewrite count_grants_add_any.
      unfold Db.grant_matches, new_grant. cbn [Db.g_rol_id Db.g_usr_id].
      destruct (Z.eqb_spec role_id r) as [->|_]; cbn [andb].
      - destruct (Z.eqb_spec uid u) as [->|_].
        + rewrite Hfresh. lia.
        + specialize (Hs r u). lia.
      - specialize (Hs r u). lia. }
    split; exact Hadd.
Qed.

Lemma grant_role_keeps_pairs_unique_witness :
  (Db.count_grants
     (session (snd (RoleManager.grant_role Sample.manager "alice" 5
                      (Sample.world_of Sample.db_granted)))) 5 42 <= 1)%nat.
Proof.
  assert (H : forall r u, (Db.count_grants Sample.db_granted r u <= 1)%nat).
  { intros r u. unfold Db.count_grants. simpl.
    destruct (Db.grant_matches r u _); simpl; lia. }
  exact (proj1 (grant_role_keeps_pairs_unique Sample.manager "alice" 5
                  (Sample.world_of Sample.db_granted) eq_refl H H) 5 42).
Defined.

(** ** Driver errors during a grant *)




(** ** A grant, then a check *)

(** X11.  What [grant_role] writes, [check_user_role] finds: under the
    conditions in which a grant goes through (a login name with a non-zero
    id, a role of the catalog still in the roles table, no row for the
    pair yet, a driver that raises nothing), the check answers [False]
    before the grant and [True] after it, and the check after the grant
    leaves the data as the grant left them. *)
Theorem grant_then_check
    (self : RoleManager.t) (user : string) (role_id uid : Z) (others : list Z) (w : World) :
  RoleManager.connection self = RoleManager.TheConnection ->
  quiet (faults w) = true ->
  Db.select_user (session w) user = uid :: others ->
  uid <> 0 ->
  RoleManager.role_exists self role_id = true ->
  existsb (fun r => fst r =? role_id) (Db.ue_roles (session w)) = true ->
  Db.count_grants (session w) role_id uid = 0%nat ->
  let granted := snd (RoleManager.grant_role self user role_id w) in
  fst (RoleManager.check_user_role self user role_id w) = Ret false /\
  fst (RoleManager.check_user_role self user role_id granted) = Ret true /\
  same_data granted (snd (RoleManager.check_user_role self user role_id granted)).
Proof.
  intros Hc Hq Hu Hnz Hr Hfk Hfresh. cbv zeta.
  assert (Hone : fetchone (Db.select_user (session w) user) = Some uid)
    by (rewrite Hu; reflexivity).
  assert (Hcheck : forall w0,
             quiet (faults w0) = true ->
             fetchone (Db.select_user (session w0) user) = Some uid ->
             RoleManager.check_user_role self user role_id w0 =
             match Db.select_grant (session w0) role_id uid with
             | [] =>
                 (Ret false,
                  add_output (Stdout, RoleManager.msg_lacks_role user role_id
                                        (RoleManager.role_name self role_id))
                    (after_call (Db.Execute (Db.SelectGrant role_id uid))
                       (after_call (Db.Execute (Db.SelectUser user)) w0)))
             | _ :: _ =>
                 (Ret true,
                  add_output (Stdout, RoleManager.msg_has_role user role_id
                                        (RoleManager.role_name self role_id))
                    (after_call (Db.Execute (Db.SelectGrant role_id uid))
                       (after_call (Db.Execute (Db.SelectUser user)) w0)))
             end).
  { intros w0 Hq0 Hone0.
    rewrite check_user_role_run by exact Hc. cbv zeta.
    rewrite (resolved_quiet w0 user (quiet_next w0 Hq0)), Hone0.
    rewrite (truthy_nonzero uid Hnz), Hr. cbn [negb Py.int_of].
    rewrite (after_resolve_quiet w0 user (quiet_next w0 Hq0)).
    rewrite quiet_next
      by (cbn [faults after_call tick add_call]; apply quiet_tl, Hq0).
    cbn [session after_call tick add_call].
    destruct (Db.select_grant (session w0) role_id uid); reflexivity. }
  assert (Hgrant : RoleManager.grant_role self user role_id w =
                   (Ret true, granted_world self user role_id uid w)).
  { rewrite (grant_role_past_checks self user role_id uid w Hc Hq Hone Hnz Hr). cbv zeta.
    rewrite (proj2 (select_grant_count _ _ _) Hfresh).
    rewrite fk_ok_iff. cbn [Db.g_rol_id Db.g_usr_id new_grant].
    now rewrite Hfk, (select_user_row _ _ _ _ Hu). }
  rewrite Hgrant. cbn [snd].
  set (w1 := granted_world self user role_id uid w).
  assert (Hs1 : session w1 = Db.add_grant (new_grant (session w) role_id uid) (session w))
    by reflexivity.
  assert (Hq1 : quiet (faults w1) = true) by apply (quiet_after_calls w 5 Hq).
  assert (Hone1 : fetchone (Db.select_user (session w1) user) = Some uid)
    by (rewrite Hs1; exact Hone).
  assert (Hcount : Db.count_grants (session w1) role_id uid = 1%nat).
  { rewrite Hs1, count_grants_add by reflexivity. now rewrite Hfresh. }
  rewrite (Hcheck w Hq Hone), (Hcheck w1 Hq1 Hone1).
  rewrite (proj2 (select_grant_count _ _ _) Hfresh).
  destruct (Db.select_grant (session w1) role_id uid) eqn:E.
  - apply select_grant_count in E. rewrite E in Hcount. discriminate.
  - repeat split.
Qed.

Lemma grant_then_check_witness :
  let granted :=
    snd (RoleManager.grant_role Sample.manager "alice" 5 (Sample.world_of Sample.db_alice)) in
  fst (RoleManager.check_user_role Sample.manager "alice" 5 (Sample.world_of Sample.db_alice))
    = Ret false /\
  fst (RoleManager.check_user_role Sample.manager "alice" 5 granted) = Ret true.
Proof.
  pose proof (grant_then_check Sample.manager "alice" 5 42 []
                (Sample.world_of Sample.db_alice)
                eq_refl eq_refl eq_refl ltac:(discriminate) eq_refl eq_refl eq_refl) as H.
  cbv zeta in H. destruct H as (H1 & H2 & _).
  cbv zeta. split; [exact H1 | exact H2].
Defined.

(** ** The configuration *)

Section Loading.

Variable py_int : string -> Z + string.
Variable getenv : string -> option string.

Lemma load_db_config_run (p : Proc.Process) :
  Proc.load_db_config py_int getenv p =
  match py_int (port_text getenv) with
  | inr text => (Proc.Stopped (Proc.Exc (ValueError text)), p)
  | inl port =>
      match unset_variables getenv with
      | [] => (Proc.Done (loaded_config getenv port), p)
      | names =>
          (Proc.Stopped (Proc.SysExit 1),
           Proc.mkProcess
             (add_output
                (Stderr, "Por favor revisar que el .env tenga todas las variables requeridas. Referir a la documentacion.")
                (add_output
                   (Stderr, "Error: Faltan vairables de entorno: " +++ String.concat ", " names)
                   (Proc.world p)))
             (Proc.connection_closed p))
      end
  end.
Proof.
  unfold Proc.load_db_config, Proc.pbind, Proc.int, port_text.
  destruct (py_int _) as [port|text]; [|reflexivity].
  unfold loaded_config, Proc.pret, unset_variables, required_variables, Proc.missing_params,
    Proc.required_params, Proc.env_names, Proc.config_get, Proc.getenv_value.
  cbn [filter].
  destruct (getenv "DB_USER") as [[|c1 s1]|];
  destruct (getenv "DB_PASSWORD") as [[|c2 s2]|];
  destruct (getenv "DB_HOST") as [[|c3 s3]|];
  destruct (getenv "DB_SID") as [[|c4 s4]|];
  reflexivity.
Qed.

Variable dotenv_path : string.
Variable load_success : bool.

Lemma api_load_db_config_run (p : Proc.Process) :
  Proc.api_load_db_config py_int getenv dotenv_path load_success p =
  let w3 :=
    add_output
      (Stdout, "--- DEBUG: ¿Archivo .env cargado con éxito? "
               +++ (if load_success then "True" else "False") +++ " ---")
      (add_output (Stdout, "--- DEBUG: Buscando .env en: " +++ dotenv_path +++ " ---")
         (add_output (Stdout, "--- DEBUG: Iniciando load_db_config ---") (Proc.world p))) in
  match py_int (port_text getenv) with
  | inr text =>
      (Proc.Stopped (Proc.Exc (ValueError text)),
       Proc.mkProcess w3 (Proc.connection_closed p))
  | inl port =>
      let w4 :=
        add_output
          (Stdout, "--- DEBUG: DB_USER leído: "
                   +++ Proc.str_of_value (Proc.getenv_value getenv "DB_USER") +++ " ---") w3 in
      match unset_variables getenv with
      | [] => (Proc.Done (api_loaded_config getenv port),
               Proc.mkProcess w4 (Proc.connection_closed p))
      | names =>
          (Proc.Stopped (Proc.SysExit 1),
           Proc.mkProcess
             (add_output
                (Stderr, "Asegúrate que el archivo '" +++ dotenv_path
                         +++ "' exista (¡sin .txt!), tenga codificación UTF-8 y todas las claves.")
                (add_output
                   (Stderr, "Error: Faltan variables de entorno: " +++ String.concat ", " names)
                   w4))
             (Proc.connection_closed p))
      end
  end.
Proof.
  unfold Proc.api_load_db_config, Proc.pbind, Proc.int, port_text. cbv zeta.
  cbn [Proc.lift print Proc.world Proc.connection_closed].
  destruct (py_int _) as [port|text]; [|reflexivity].
  unfold api_loaded_config, Proc.pret, unset_variables, required_variables, Proc.missing_params,
    Proc.required_params, Proc.env_names, Proc.config_get, Proc.getenv_value.
  cbn [filter].
  destruct (getenv "DB_USER") as [[|c1 s1]|];
  destruct (getenv "DB_PASSWORD") as [[|c2 s2]|];
  destruct (getenv "DB_HOST") as [[|c3 s3]|];
  destruct (getenv "DB_SID") as [[|c4 s4]|];
  reflexivity.
Qed.

End Loading.

(** X12.  [load_db_config] of rol_management.py, for an environment whose
    port text [int] accepts (the text "1521" when DB_PORT is unset): it
    returns the configuration, printing nothing, exactly when DB_USER,
    DB_PASSWORD, DB_HOST and DB_SID are all set and non-empty; otherwise
    it names the variables that are unset or empty, in that order, on
    stderr and exits with status 1.  DB_SERVICE is never asked for.  In
    both cases the database is not touched. *)
Theorem load_db_config_requires_four_variables
    (py_int : string -> Z + string) (getenv : string -> option string)
    (port : Z) (p : Proc.Process) :
  py_int (port_text getenv) = inl port ->
  let run := Proc.load_db_config py_int getenv p in
  (unset_variables getenv = [] -> run = (Proc.Done (loaded_config getenv port), p)) /\
  (unset_variables getenv <> [] ->
   fst run = Proc.Stopped (Proc.SysExit 1) /\
   printed_between (Proc.world p) (Proc.world (snd run))
     [(Stderr, "Error: Faltan vairables de entorno: "
               +++ String.concat ", " (unset_variables getenv));
      (Stderr, "Por favor revisar que el .env tenga todas las variables requeridas. Referir a la documentacion.")]) /\
  same_data (Proc.world p) (Proc.world (snd run)) /\
  calls (Proc.world (snd run)) = calls (Proc.world p).
Proof.
  intros Hport. cbv zeta. rewrite load_db_config_run, Hport.
  destruct (unset_variables getenv) as [|name names].
  - split; [reflexivity|]. split; [intros Hne; now contradiction Hne|]. repeat split.
  - split; [discriminate|]. split.
    + intros _. split; [reflexivity|].
      unfold printed_between. cbn [snd Proc.world output add_output].
      now rewrite <- app_assoc.
    + repeat split.
Qed.

Lemma load_db_config_requires_four_variables_witness :
  Proc.load_db_config Demo.int Demo.full_env (Demo.start Sample.db_alice) =
    (Proc.Done (loaded_config Demo.full_env 1521), Demo.start Sample.db_alice) /\
  fst (Proc.load_db_config Demo.int Demo.partial_env (Demo.start Sample.db_alice)) =
    Proc.Stopped (Proc.SysExit 1) /\
  output (Proc.world (snd (Proc.load_db_config Demo.int Demo.partial_env
                             (Demo.start Sample.db_alice)))) =
    [(Stderr, "Error: Faltan vairables de entorno: DB_PASSWORD, DB_HOST");
     (Stderr, "Por favor revisar que el .env tenga todas las variables requeridas. Referir a la documentacion.")].
Proof.
  split; [|split].
  - refine (proj1 (load_db_config_requires_four_variables Demo.int Demo.full_env 1521
                     (Demo.start Sample.db_alice) _) _); reflexivity.
  - refine (proj1 (proj1 (proj2 (load_db_config_requires_four_variables Demo.int
                     Demo.partial_env 1521 (Demo.start Sample.db_alice) _)) _));
      [reflexivity | discriminate].
  - refine (proj2 (proj1 (proj2 (load_db_config_requires_four_variables Demo.int
                     Demo.partial_env 1521 (Demo.start Sample.db_alice) _)) _));
      [reflexivity | discriminate].
Defined.


(** ** The command line *)

Section MainRuns.

Variable py_int : string -> Z + string.
Variable py_strip : string -> string.
Variable getenv : string -> option string.

Lemma lift_run {A} (m : M A) (p : Proc.Process) (a : A) (w' : World) :
  m (Proc.world p) = (Ret a, w') ->
  Proc.lift m p = (Proc.Done a, Proc.mkProcess w' (Proc.connection_closed p)).
Proof. intros H. unfold Proc.lift. now rewrite H. Qed.


Lemma int_each_stops (good rest : list string) (bad text : string) (ids : list Z)
    (p : Proc.Process) :
  map (fun piece => py_int (py_strip piece)) good = map inl ids ->
  py_int (py_strip bad) = inr text ->
  Proc.int_each py_int py_strip (good ++ bad :: rest) p =
  (Proc.Stopped (Proc.Exc (ValueError text)), p).
Proof.
  revert ids. induction good as [|piece good IH]; intros ids H Hbad.
  - cbn [app Proc.int_each]. unfold Proc.pbind, Proc.int. now rewrite Hbad.
  - destruct ids as [|n ids]; [discriminate|].
    simpl in H. injection H as Hn Hrest.
    cbn [app Proc.int_each]. unfold Proc.pbind, Proc.int. rewrite Hn.
    unfold Proc.pret at 1. now rewrite (IH ids Hrest Hbad).
Qed.




(** The constructor always hands a manager back when given the
    connection. *)
Lemma init_returns (w : World) :
  exists self w1,
    RoleManager.init RoleManager.TheConnection w = (Ret self, w1) /\
    RoleManager.connection self = RoleManager.TheConnection /\
    same_data w w1 /\
    calls w1 = calls w ++ [Db.Execute Db.SelectRoles].
Proof.
  rewrite init_run. destruct (next_fault w); eexists; eexists; repeat split.
Qed.

Lemma main_run (a : Proc.args) (p : Proc.Process) (port : Z)
    (self : RoleManager.t) (w1 : World) :
  py_int (port_text getenv) = inl port ->
  unset_variables getenv = [] ->
  RoleManager.init RoleManager.TheConnection (Proc.world p) = (Ret self, w1) ->
  Proc.main py_int py_strip getenv None a p =
  Proc.try_finally
    (Proc.try_except (Proc.main_try py_int py_strip self a) Proc.except_value_error)
    Proc.close
    (Proc.mkProcess w1 (Proc.connection_closed p)).
Proof.
  intros Hport Henv Hinit.
  unfold Proc.main. unfold Proc.pbind at 1.
  rewrite load_db_config_run, Hport, Henv.
  unfold Proc.pbind at 1. unfold Proc.connect_to_db, Proc.pret at 1.
  unfold Proc.pbind at 1. rewrite (lift_run _ _ _ _ Hinit).
  reflexivity.
Qed.

End MainRuns.

Section MainTheorems.

Variable py_int : string -> Z + string.
Variable py_strip : string -> string.
Variable getenv : string -> option string.


(** X15.  One piece of [--roles] that [int] refuses is enough for [main]
    to do nothing: whatever the pieces before it, no check and no grant is
    made, the text of the [ValueError] is printed after "Error: " on
    stderr, the connection is closed and the process exits with status
    1. *)
Theorem main_rejects_bad_role_id (a : Proc.args) (p : Proc.Process) (port : Z)
    (good rest : list string) (bad text : string) (ids : list Z) :
  py_int (port_text getenv) = inl port ->
  unset_variables getenv = [] ->
  Proc.arg_action a <> Proc.ListRoles ->
  Proc.given (Proc.arg_user_name a) = true ->
  Proc.given (Proc.arg_roles a) = true ->
  Proc.split_commas (Proc.text_of (Proc.arg_roles a)) = good ++ bad :: rest ->
  map (fun piece => py_int (py_strip piece)) good = map inl ids ->
  py_int (py_strip bad) = inr text ->
  exists self w1,
    RoleManager.init RoleManager.TheConnection (Proc.world p) = (Ret self, w1) /\
    Proc.main py_int py_strip getenv None a p =
    (Proc.Stopped (Proc.SysExit 1),
     Proc.mkProcess (add_output (Stderr, "Error: " +++ text) w1) true).
Proof.
  intros Hport Henv Hact Hu Hr Hsplit Hgood Hbad.
  destruct (init_returns (Proc.world p)) as (self & w1 & Hinit & Hc & _).
  exists self, w1. split; [exact Hinit|].
  rewrite (main_run py_int py_strip getenv a p port self w1 Hport Henv Hinit).
  unfold Proc.try_finally, Proc.try_except, Proc.main_try.
  rewrite Hu, Hr, Hsplit. cbn [negb orb].
  destruct (Proc.arg_action a) eqn:Eact; [| |now contradiction Hact];
    unfold Proc.pbind at 1;
    rewrite (int_each_stops py_int py_strip good rest bad text ids _ Hgood Hbad);
    reflexivity.
Qed.

(** X16.  For the actions check and grant, a missing or empty
    [--user_name] or [--roles] makes [main] print the usage error on
    stderr, close the connection and exit with status 1, after the roles
    have been loaded and before any other call. *)
Theorem main_requires_users_and_roles (a : Proc.args) (p : Proc.Process) (port : Z) :
  py_int (port_text getenv) = inl port ->
  unset_variables getenv = [] ->
  Proc.arg_action a <> Proc.ListRoles ->
  Proc.given (Proc.arg_user_name a) = false \/ Proc.given (Proc.arg_roles a) = false ->
  exists self w1,
    RoleManager.init RoleManager.TheConnection (Proc.world p) = (Ret self, w1) /\
    Proc.main py_int py_strip getenv None a p =
    (Proc.Stopped (Proc.SysExit 1),
     Proc.mkProcess
       (add_output
          (Stderr, "Error: --user_name y --roles son requeridos para acciones check y grant")
          w1)
       true).
Proof.
  intros Hport Henv Hact Hmiss.
  destruct (init_returns (Proc.world p)) as (self & w1 & Hinit & Hc & _).
  exists self, w1. split; [exact Hinit|].
  rewrite (main_run py_int py_strip getenv a p port self w1 Hport Henv Hinit).
  unfold Proc.try_finally, Proc.try_except, Proc.main_try.
  assert (Hor : (negb (Proc.given (Proc.arg_user_name a))
                 || negb (Proc.given (Proc.arg_roles a)))%bool = true).
  { destruct Hmiss as [-> | ->]; [reflexivity | apply orb_true_r]. }
  rewrite Hor.
  destruct (Proc.arg_action a) eqn:Eact; [| |now contradiction Hact]; reflexivity.
Qed.


End MainTheorems.


Lemma main_rejects_bad_role_id_witness :
  let a := Proc.mkArgs Proc.Grant (Some "alice") (Some "5,x,7") in
  exists self w1,
    RoleManager.init RoleManager.TheConnection (Sample.world_of Sample.db_alice) = (Ret self, w1) /\
    Proc.main Demo.int Demo.strip Demo.full_env None a (Demo.start Sample.db_alice) =
    (Proc.Stopped (Proc.SysExit 1),
     Proc.mkProcess
       (add_output (Stderr, "Error: invalid literal for int() with base 10: 'x'") w1)
       true).
Proof.
  cbv zeta.
  apply (main_rejects_bad_role_id Demo.int Demo.strip Demo.full_env
           (Proc.mkArgs Proc.Grant (Some "alice") (Some "5,x,7"))
           (Demo.start Sample.db_alice) 1521 ["5"] ["7"] "x"
           "invalid literal for int() with base 10: 'x'" [5]);
    try reflexivity; discriminate.
Defined.

Lemma main_requires_users_and_roles_witness :
  let a := Proc.mkArgs Proc.Check (Some "alice") None in
  exists self w1,
    RoleManager.init RoleManager.TheConnection (Sample.world_of Sample.db_alice) = (Ret self, w1) /\
    Proc.main Demo.int Demo.strip Demo.full_env None a (Demo.start Sample.db_alice) =
    (Proc.Stopped (Proc.SysExit 1),
     Proc.mkProcess
       (add_output
          (Stderr, "Error: --user_name y --roles son requeridos para acciones check y grant")
          w1)
       true).
Proof.
  cbv zeta.
  apply (main_requires_users_and_roles Demo.int Demo.strip Demo.full_env
           (Proc.mkArgs Proc.Check (Some "alice") None)
           (Demo.start Sample.db_alice) 1521);
    try reflexivity; [discriminate | right; reflexivity].
Defined.

(** ** What the process leaves alone *)

Section KeepsData.

Lemma same_data_refl (w : World) : same_data w w.
Proof. split; reflexivity. Qed.

Lemma same_data_trans (w1 w2 w3 : World) :
  same_data w1 w2 -> same_data w2 w3 -> same_data w1 w3.
Proof. intros [H1 H2] [H3 H4]. split; congruence. Qed.

Lemma keeps_pret {A} (a : A) : keeps_data (Proc.pret a).
Proof. intros p. apply same_data_refl. Qed.

Lemma keeps_sys_exit {A} (code : Z) : keeps_data (@Proc.sys_exit A code).
Proof. intros p. apply same_data_refl. Qed.

Lemma keeps_praise {A} (e : exn) : keeps_data (@Proc.praise A e).
Proof. intros p. apply same_data_refl. Qed.

Lemma keeps_close : keeps_data Proc.close.
Proof. intros p. apply same_data_refl. Qed.

Lemma keeps_pbind {A B} (m : Proc.P A) (k : A -> Proc.P B) :
  keeps_data m -> (forall a, keeps_data (k a)) -> keeps_data (Proc.pbind m k).
Proof.
  intros Hm Hk p. unfold Proc.pbind. specialize (Hm p).
  destruct (m p) as [[a|s] p']; cbn [snd] in *.
  - eapply same_data_trans; [exact Hm | apply Hk].
  - exact Hm.
Qed.

Lemma keeps_lift {A} (m : M A) :
  (forall w, same_data w (snd (m w))) -> keeps_data (Proc.lift m).
Proof.
  intros Hm p. unfold Proc.lift. specialize (Hm (Proc.world p)).
  destruct (m (Proc.world p)) as [[a|e] w']; exact Hm.
Qed.

Lemma keeps_try_except {A} (body : Proc.P A) (handler : Proc.raised -> option (Proc.P A)) :
  keeps_data body ->
  (forall s h, handler s = Some h -> keeps_data h) ->
  keeps_data (Proc.try_except body handler).
Proof.
  intros Hb Hh p. unfold Proc.try_except. specialize (Hb p).
  destruct (body p) as [[a|s] p']; cbn [snd] in *; [exact Hb|].
  destruct (handler s) as [h|] eqn:E; [|exact Hb].
  eapply same_data_trans; [exact Hb | apply (Hh s h E)].
Qed.

Lemma keeps_try_finally {A} (body : Proc.P A) (cleanup : Proc.P unit) :
  keeps_data body -> keeps_data cleanup -> keeps_data (Proc.try_finally body cleanup).
Proof.
  intros Hb Hc p. unfold Proc.try_finally. specialize (Hb p).
  destruct (body p) as [r p']. specialize (Hc p').
  destruct (cleanup p') as [[u|s] p'']; cbn [snd] in *;
    eapply same_data_trans; eassumption.
Qed.

Lemma keeps_for_each {A} (xs : list A) (body : A -> Proc.P unit) :
  (forall x, keeps_data (body x)) -> keeps_data (Proc.for_each xs body).
Proof.
  intros Hb. induction xs as [|x xs IH]; cbn [Proc.for_each].
  - apply keeps_pret.
  - apply keeps_pbind; [apply Hb | intros _; exact IH].
Qed.

Lemma print_keeps (s : stream) (text : string) (w : World) :
  same_data w (snd (print s text w)).
Proof. split; reflexivity. Qed.

Lemma init_keeps (c : RoleManager.conn_ref) (w : World) :
  same_data w (snd (RoleManager.init c w)).
Proof.
  destruct c.
  - rewrite init_no_connection. split; reflexivity.
  - rewrite init_run. destruct (next_fault w); split; reflexivity.
Qed.

Lemma list_all_roles_keeps (self : RoleManager.t) (w : World) :
  same_data w (snd (RoleManager.list_all_roles self w)).
Proof.
  rewrite list_all_roles_run.
  destruct (Py.dict_is_empty (RoleManager.roles self)); cbn [snd].
  - split; reflexivity.
  - destruct (add_outputs_rest
                (table_lines self (Py.sorted (Py.dict_items (RoleManager.roles self)))) w)
      as (H1 & H2 & _).
    split; assumption.
Qed.

Lemma check_user_role_keeps (self : RoleManager.t) (user : string) (role_id : Z) (w : World) :
  same_data w (snd (RoleManager.check_user_role self user role_id w)).
Proof.
  destruct (RoleManager.connection self) eqn:Hc.
  - unfold RoleManager.check_user_role. rewrite Hc. split; reflexivity.
  - apply (check_user_role_reads_only self user role_id w Hc).
Qed.

End KeepsData.

Section ReadOnlyActions.

Variable py_int : string -> Z + string.
Variable py_strip : string -> string.
Variable getenv : string -> option string.
Variable attempt : option Db.ora_error.

Lemma int_each_keeps (pieces : list string) :
  keeps_data (Proc.int_each py_int py_strip pieces).
Proof.
  induction pieces as [|piece pieces IH]; cbn [Proc.int_each].
  - apply keeps_pret.
  - apply keeps_pbind.
    + unfold Proc.int. destruct (py_int _); [apply keeps_pret | apply keeps_praise].
    + intros n. apply keeps_pbind; [exact IH | intros ns; apply keeps_pret].
Qed.

Lemma load_db_config_keeps : keeps_data (Proc.load_db_config py_int getenv).
Proof.
  intros p. rewrite load_db_config_run.
  destruct (py_int _); [|split; reflexivity].
  destruct (unset_variables getenv); split; reflexivity.
Qed.

Lemma connect_to_db_keeps (c : Proc.config) : keeps_data (Proc.connect_to_db attempt c).
Proof.
  unfold Proc.connect_to_db. destruct attempt.
  - apply keeps_pbind; [apply keeps_lift, print_keeps | intros _; apply keeps_sys_exit].
  - apply keeps_pret.
Qed.

(** X17.  Only the action grant can change the database.  For check
    and list-roles, whatever the environment, the outcome of the
    connection attempt, the arguments, the state of the database and the
    behaviour of the driver, [main] leaves the committed data and the
    session's data exactly as it found them. *)
Theorem main_reads_only (a : Proc.args) (p : Proc.Process) :
  Proc.arg_action a <> Proc.Grant ->
  same_data (Proc.world p)
    (Proc.world (snd (Proc.main py_int py_strip getenv attempt a p))).
Proof.
  intros Hact. revert p. change (keeps_data (Proc.main py_int py_strip getenv attempt a)).
  unfold Proc.main.
  apply keeps_pbind; [apply load_db_config_keeps | intros c].
  apply keeps_pbind; [apply connect_to_db_keeps | intros connection].
  apply keeps_pbind; [apply keeps_lift, init_keeps | intros self].
  apply keeps_try_finally.
  - apply keeps_try_except.
    + unfold Proc.main_try.
      destruct (Proc.arg_action a); [| now contradiction Hact |].
      * destruct (_ || _)%bool.
        -- apply keeps_pbind; [apply keeps_lift, print_keeps | intros _; apply keeps_sys_exit].
        -- apply keeps_pbind; [apply int_each_keeps | intros ids].
           apply keeps_for_each. intros user. apply keeps_for_each. intros role_id.
           apply keeps_pbind; [|intros _; apply keeps_pret].
           apply keeps_lift. apply check_user_role_keeps.
      * apply keeps_pbind; [|intros _; apply keeps_pret].
        apply keeps_lift. apply list_all_roles_keeps.
    + intros s h Hh. unfold Proc.except_value_error in Hh.
      destruct s as [[| |]|]; try discriminate.
      injection Hh as <-.
      apply keeps_pbind; [apply keeps_lift, print_keeps | intros _; apply keeps_sys_exit].
  - destruct (RoleManager.no_connection connection); [apply keeps_pret | apply keeps_close].
Qed.

(** X18.  When a required variable is unset or empty, or the connection
    attempt raises an [oracledb.Error], [main] reports on stderr and
    exits with status 1 before it has made any database call; there is no
    connection to close. *)
Theorem main_stops_before_the_database (a : Proc.args) (p : Proc.Process) (port : Z) :
  py_int (port_text getenv) = inl port ->
  unset_variables getenv <> [] \/ attempt <> None ->
  let run := Proc.main py_int py_strip getenv attempt a p in
  Proc.exit_status (fst run) = 1 /\
  calls (Proc.world (snd run)) = calls (Proc.world p) /\
  same_data (Proc.world p) (Proc.world (snd run)) /\
  Proc.connection_closed (snd run) = Proc.connection_closed p /\
  exists lines, printed_between (Proc.world p) (Proc.world (snd run)) lines /\
                Forall (fun line => fst line = Stderr) lines /\ lines <> [].
Proof.
  intros Hport Hstop. cbv zeta.
  assert (Hrun : exists lines,
             Proc.main py_int py_strip getenv attempt a p =
             (Proc.Stopped (Proc.SysExit 1),
              Proc.mkProcess (add_outputs lines (Proc.world p)) (Proc.connection_closed p)) /\
             Forall (fun line => fst line = Stderr) lines /\ lines <> []).
  { unfold Proc.main. unfold Proc.pbind at 1.
    rewrite load_db_config_run, Hport.
    destruct (unset_variables getenv) as [|name names] eqn:Eenv.
    - destruct Hstop as [H|H]; [now contradiction H|].
      unfold Proc.pbind at 1. unfold Proc.connect_to_db.
      destruct attempt as [e|]; [|now contradiction H].
      exists [(Stderr, "Error de conexion con la DB: " +++ Db.ora_str e)].
      split; [reflexivity|]. split; [repeat constructor | discriminate].
    - eexists [_; _]. split; [reflexivity|].
      split; [repeat constructor | discriminate]. }
  destruct Hrun as (lines & -> & Hall & Hne).
  cbn [fst snd Proc.world Proc.connection_closed Proc.exit_status].
  destruct (add_outputs_rest lines (Proc.world p)) as (H1 & H2 & _ & H4).
  split; [reflexivity|]. split; [exact H4|]. split; [split; assumption|].
  split; [reflexivity|].
  exists lines. split; [apply add_outputs_output|]. split; assumption.
Qed.

End ReadOnlyActions.

Lemma main_reads_only_witness :
  same_data (Sample.world_of Sample.db_alice)
    (Proc.world
       (snd (Proc.main Demo.int Demo.strip Demo.full_env None
               (Proc.mkArgs Proc.Check (Some "alice") (Some "5"))
               (Demo.start Sample.db_alice)))).
Proof.
  apply (main_reads_only Demo.int Demo.strip Demo.full_env None
           (Proc.mkArgs Proc.Check (Some "alice") (Some "5"))
           (Demo.start Sample.db_alice)).
  discriminate.
Defined.

Lemma main_stops_before_the_database_witness :
  Proc.exit_status
    (fst (Proc.main Demo.int Demo.strip Demo.partial_env None
            (Proc.mkArgs Proc.ListRoles None None) (Demo.start Sample.db_alice))) = 1 /\
  Proc.exit_status
    (fst (Proc.main Demo.int Demo.strip Demo.full_env (Some Sample.lost_contact)
            (Proc.mkArgs Proc.ListRoles None None) (Demo.start Sample.db_alice))) = 1.
Proof.
  split.
  - refine (proj1 (main_stops_before_the_database Demo.int Demo.strip Demo.partial_env None
                     (Proc.mkArgs Proc.ListRoles None None) (Demo.start Sample.db_alice)
                     1521 _ _)); [reflexivity | left; discriminate].
  - refine (proj1 (main_stops_before_the_database Demo.int Demo.strip Demo.full_env
                     (Some Sample.lost_contact)
                     (Proc.mkArgs Proc.ListRoles None None) (Demo.start Sample.db_alice)
                     1521 _ _)); [reflexivity | right; discriminate].
Defined.

(** ** The start-up code of api.py *)

Section Startup.

Variable py_int : string -> Z + string.
Variable getenv : string -> option string.
Variable attempt : option Db.ora_error.
Variable dotenv_path : string.
Variable load_success : bool.

Lemma startup_run (p : Proc.Process) :
  Proc.startup py_int getenv attempt dotenv_path load_success p =
  let closed := Proc.connection_closed p in
  let w3 :=
    add_output
      (Stdout, "--- DEBUG: ¿Archivo .env cargado con éxito? "
               +++ (if load_success then "True" else "False") +++ " ---")
      (add_output (Stdout, "--- DEBUG: Buscando .env en: " +++ dotenv_path +++ " ---")
         (add_output (Stdout, "--- DEBUG: Iniciando load_db_config ---") (Proc.world p))) in
  match py_int (port_text getenv) with
  | inr text =>
      (Proc.Done None,
       Proc.mkProcess
         (add_output (Stderr, "Error fatal al inicializar la app: " +++ text) w3) closed)
  | inl port =>
      let w4 :=
        add_output
          (Stdout, "--- DEBUG: DB_USER leído: "
                   +++ Proc.str_of_value (Proc.getenv_value getenv "DB_USER") +++ " ---") w3 in
      match unset_variables getenv with
      | name :: names =>
          (Proc.Stopped (Proc.SysExit 1),
           Proc.mkProcess
             (add_output
                (Stderr, "Asegúrate que el archivo '" +++ dotenv_path
                         +++ "' exista (¡sin .txt!), tenga codificación UTF-8 y todas las claves.")
                (add_output
                   (Stderr, "Error: Faltan variables de entorno: "
                            +++ String.concat ", " (name :: names))
                   w4))
             closed)
      | [] =>
          match attempt with
          | Some e =>
              (Proc.Stopped (Proc.SysExit 1),
               Proc.mkProcess
                 (add_output (Stderr, "Error de conexion con la DB: " +++ Db.ora_str e) w4)
                 closed)
          | None =>
              match RoleManager.init RoleManager.TheConnection w4 with
              | (Ret self, w5) =>
                  (Proc.Done (Some self),
                   Proc.mkProcess
                     (add_output (Stdout, "¡Conexión a Oracle DB exitosa!") w5) closed)
              | (Raise e, w5) =>
                  (Proc.Done None,
                   Proc.mkProcess
                     (add_output (Stderr, "Error fatal al inicializar la app: " +++ exn_str e)
                        w5)
                     closed)
              end
          end
      end
  end.
Proof.
  unfold Proc.startup, Proc.try_except. unfold Proc.pbind at 1.
  rewrite api_load_db_config_run. cbv zeta.
  destruct (py_int (port_text getenv)) as [port|text]; [|reflexivity].
  destruct (unset_variables getenv) as [|name names]; [|reflexivity].
  unfold Proc.pbind at 1. unfold Proc.api_connect_to_db.
  destruct attempt as [e|]; [reflexivity|].
  unfold Proc.pret at 1. cbn [RoleManager.no_connection].
  unfold Proc.pbind at 1. unfold Proc.lift at 1. cbn [Proc.world Proc.connection_closed].
  destruct (RoleManager.init RoleManager.TheConnection _) as [[self|e] w5]; reflexivity.
Qed.

(** X19.  The start-up code of api.py does not survive a missing variable
    or an unreachable database: [load_db_config] and [connect_to_db] call
    [sys.exit(1)], and the [except Exception] around them does not catch
    [SystemExit].  The module stops loading with exit status 1, before
    any database call, and no server comes up. *)
Theorem startup_exits_on_sys_exit (p : Proc.Process) (port : Z) :
  py_int (port_text getenv) = inl port ->
  unset_variables getenv <> [] \/ attempt <> None ->
  let run := Proc.startup py_int getenv attempt dotenv_path load_success p in
  fst run = Proc.Stopped (Proc.SysExit 1) /\
  calls (Proc.world (snd run)) = calls (Proc.world p) /\
  same_data (Proc.world p) (Proc.world (snd run)).
Proof.
  intros Hport Hstop. cbv zeta. rewrite startup_run, Hport. cbv zeta.
  destruct (unset_variables getenv) as [|name names].
  - destruct Hstop as [H|H]; [now contradiction H|].
    destruct attempt as [e|]; [|now contradiction H].
    split; [reflexivity|]. split; [reflexivity|]. split; reflexivity.
  - split; [reflexivity|]. split; [reflexivity|]. split; reflexivity.
Qed.

(** X20.  A DB_PORT that [int] refuses is the case the start-up code
    does survive: the [ValueError] is caught, its text is printed after
    "Error fatal al inicializar la app: " on stderr, no database call is
    made, and the global [role_manager] stays [None]; GET /roles then
    answers the connection error with status 500. *)
Theorem startup_bad_port_serves_500 (p : Proc.Process) (text : string) :
  py_int (port_text getenv) = inr text ->
  let run := Proc.startup py_int getenv attempt dotenv_path load_success p in
  fst run = Proc.Done None /\
  (exists lines,
      printed_between (Proc.world p) (Proc.world (snd run))
        (lines ++ [(Stderr, "Error fatal al inicializar la app: " +++ text)])) /\
  calls (Proc.world (snd run)) = calls (Proc.world p) /\
  forall w,
    Api.get_all_roles None w =
    (Ret (Py.VDict [("error", Py.VStr "El servidor no pudo conectarse a la base de datos")],
          500), w).
Proof.
  intros Hport. cbv zeta. rewrite startup_run, Hport. cbv zeta.
  split; [reflexivity|]. split.
  { eexists [_; _; _]. unfold printed_between.
    cbn [snd Proc.world output add_output].
    rewrite <- !app_assoc. reflexivity. }
  split; [reflexivity|]. intros w. reflexivity.
Qed.

(** X21.  The start-up code never lets an exception escape and can end
    the process only with status 1.  When it leaves a manager, the
    environment was complete and the connection made; the manager holds
    the connection, and its catalog is the roles table as it was at
    start-up, or empty when the driver failed on that query. *)
Theorem startup_outcomes (p : Proc.Process) :
  let run := Proc.startup py_int getenv attempt dotenv_path load_success p in
  (forall e, fst run <> Proc.Stopped (Proc.Exc e)) /\
  (forall code, fst run = Proc.Stopped (Proc.SysExit code) -> code = 1) /\
  (forall self, fst run = Proc.Done (Some self) ->
     attempt = None /\ unset_variables getenv = [] /\
     RoleManager.connection self = RoleManager.TheConnection /\
     (next_fault (Proc.world p) = None ->
      RoleManager.roles self =
        Py.dict_of_pairs Z.eqb (Db.ue_roles (session (Proc.world p)))) /\
     (next_fault (Proc.world p) <> None -> RoleManager.roles self = [])).
Proof.
  cbv zeta.
  rewrite startup_run. cbv zeta.
  destruct (py_int (port_text getenv)) as [port|text].
  2:{ split; [intros; discriminate|]. split; intros; discriminate. }
  destruct (unset_variables getenv) as [|name names].
  2:{ split; [intros; discriminate|]. split; [intros code [= <-]; reflexivity|].
      intros; discriminate. }
  destruct attempt as [e|].
  { split; [intros; discriminate|]. split; [intros code [= <-]; reflexivity|].
    intros; discriminate. }
  rewrite init_run.
  match goal with |- context [next_fault ?w] =>
    change (next_fault w) with (next_fault (Proc.world p));
    change (session w) with (session (Proc.world p)) end.
  destruct (next_fault (Proc.world p)) as [e|]; cbv zeta;
    (split; [intros; discriminate|]); (split; [intros; discriminate|]);
    intros self [= <-]; repeat split.
  - intros; discriminate.
  - intros H. now contradiction H.
Qed.

End Startup.

Lemma startup_exits_on_sys_exit_witness :
  fst (Proc.startup Demo.int Demo.partial_env None ".env" true (Demo.start Sample.db_alice)) =
    Proc.Stopped (Proc.SysExit 1) /\
  fst (Proc.startup Demo.int Demo.full_env (Some Sample.lost_contact) ".env" true
         (Demo.start Sample.db_alice)) =
    Proc.Stopped (Proc.SysExit 1).
Proof.
  split.
  - refine (proj1 (startup_exits_on_sys_exit Demo.int Demo.partial_env None ".env" true
                     (Demo.start Sample.db_alice) 1521 _ _));
      [reflexivity | left; discriminate].
  - refine (proj1 (startup_exits_on_sys_exit Demo.int Demo.full_env
                     (Some Sample.lost_contact) ".env" true
                     (Demo.start Sample.db_alice) 1521 _ _));
      [reflexivity | right; discriminate].
Defined.

Lemma startup_bad_port_serves_500_witness :
  fst (Proc.startup Demo.int Demo.bad_port_env None ".env" true (Demo.start Sample.db_alice)) =
    Proc.Done None.
Proof.
  refine (proj1 (startup_bad_port_serves_500 Demo.int Demo.bad_port_env None ".env" true
                   (Demo.start Sample.db_alice)
                   "invalid literal for int() with base 10: 'abc'" _)).
  reflexivity.
Defined.

(** ** Resolving a user *)


